(** * Atlas Scientific sensor firmware: chip protocol, publisher and main cycle

    A shallow embedding of the two sketches of the repository
    ([atlas-statsd.ino], the plain-serial variant, and its sibling built
    around the [DEBUG_PRINT] macro) together with the properties their
    specification states about them.

    The sketches talk to three pieces of hardware through the platform
    libraries: the I2C bus ([Wire]), a UDP socket ([udp_client]) and the
    serial port ([Serial]).  The embedding keeps every call to them as an
    [event] of a trace, in program order, and threads the program's globals
    ([ph_chip], [last_reading], [device_id]) through a state monad. *)

From Stdlib Require Import ZArith String Ascii Bool Lia.
From Stdlib Require Import Floats.SpecFloat.
From stdpp Require Import base list.

Local Open Scope Z_scope.

(** ** Data model *)

(** [typedef enum { ph, ec, orp, dissolved_oxygen } chip_type;] *)
Inductive chip_type := ph | ec | orp | dissolved_oxygen.

(** [typedef enum { i2c, serial } chip_mode;] *)
Inductive chip_mode := i2c | serial.

(** [struct atlas_chip]; [address] is a [byte], [data] an Arduino [String]. *)
Record atlas_chip := mk_chip {
  type : chip_type;
  mode : chip_mode;
  address : Z;
  data : string
}.

(** The value an enumerator converts to, as in [String(chip.type)]. *)
Definition chip_type_value (t : chip_type) : Z :=
  match t with ph => 0 | ec => 1 | orp => 2 | dissolved_oxygen => 3 end.

Definition chip_type_eqb (a b : chip_type) : bool :=
  chip_type_value a =? chip_type_value b.

(** ** The environment *)

(** What is handed to [Serial.print]/[Serial.println]: the operands of the
    [String] concatenation, in order.  [String(int)] and [String(float)] are
    kept as the number they format, [millis()] as an opaque clock reading. *)
Inductive piece :=
| Lit (s : string)
| Int (z : Z)
| Flt (x : spec_float)
| Millis.

Inductive event :=
| I2cBegin (addr : Z)                        (* Wire.beginTransmission *)
| I2cWrite (bytes : string)                  (* Wire.write *)
| I2cEnd                                     (* Wire.endTransmission *)
| I2cRequest (addr : Z) (quantity : Z)       (* Wire.requestFrom *)
| Delay (ms : Z)                             (* delay *)
| UdpBegin (ip : Z * Z * Z * Z) (port : Z)   (* udp_client.beginPacket *)
| UdpWrite (payload : string)                (* udp_client.write *)
| UdpEnd                                     (* udp_client.endPacket *)
| SerialPrint (msg : list piece)             (* Serial.print *)
| SerialPrintln (msg : list piece)           (* Serial.println *)
| DeepSleep (seconds : Z).                   (* System.sleep(SLEEP_MODE_DEEP, ..) *)

(** The machine: the trace of library calls so far (oldest first), the state
    of the I2C receive buffer, what the peripheral will answer to the read
    requests still to come, the stale bytes an uninitialised [reading] array
    is found to hold, and the globals of the sketch.

    [stack] lists the bytes found in memory from the first cell of a freshly
    allocated [char reading[response_size]] onwards; memory behind the end of
    the list reads as zero.  *)
Record machine := mk_machine {
  trace : list event;
  wire_rx : list Z;
  wire_replies : list (list Z);
  stack : list ascii;
  ph_chip : atlas_chip;
  last_reading : spec_float;
  device_id : string
}.

Definition set_trace (t : list event) (m : machine) : machine :=
  mk_machine t (wire_rx m) (wire_replies m) (stack m)
             (ph_chip m) (last_reading m) (device_id m).

Definition set_wire (rx : list Z) (replies : list (list Z)) (m : machine) : machine :=
  mk_machine (trace m) rx replies (stack m)
             (ph_chip m) (last_reading m) (device_id m).

Definition set_ph_chip (c : atlas_chip) (m : machine) : machine :=
  mk_machine (trace m) (wire_rx m) (wire_replies m) (stack m)
             c (last_reading m) (device_id m).

Definition set_last_reading (x : spec_float) (m : machine) : machine :=
  mk_machine (trace m) (wire_rx m) (wire_replies m) (stack m)
             (ph_chip m) x (device_id m).

(** *** A state monad over the machine *)

Definition M (A : Type) : Type := machine -> A * machine.

Definition ret {A} (a : A) : M A := fun m => (a, m).

Definition bind {A B} (c : M A) (k : A -> M B) : M B :=
  fun m => let (a, m') := c m in k a m'.

Declare Scope cmd_scope.
Delimit Scope cmd_scope with cmd.
Notation "x <- c ;; k" := (bind c (fun x => k))
  (at level 100, c at next level, right associativity) : cmd_scope.
Notation "c ;; k" := (bind c (fun _ => k))
  (at level 100, right associativity) : cmd_scope.
Local Open Scope cmd_scope.

Definition exec {A} (c : M A) (m : machine) : machine := snd (c m).
Definition eval {A} (c : M A) (m : machine) : A := fst (c m).

Definition emit (e : event) : M unit :=
  fun m => (tt, set_trace (trace m ++ [e]) m).

(** A counted loop [for (int i = 0; i < n; i++) body], whose body neither
    reads nor changes the counter. *)
Fixpoint repeatM (n : nat) (body : M unit) : M unit :=
  match n with
  | O => ret tt
  | S k => (body ;; repeatM k body)
  end.

(** *** The I2C bus *)

Definition Wire_beginTransmission (addr : Z) : M unit := emit (I2cBegin addr).
Definition Wire_write (s : string) : M unit := emit (I2cWrite s).
Definition Wire_endTransmission : M unit := emit I2cEnd.
Definition delay (ms : Z) : M unit := emit (Delay ms).

(** The answer the peripheral gives to the next read request; none when the
    list of answers is exhausted. *)
Definition next_reply (m : machine) : list Z :=
  match wire_replies m with [] => [] | r :: _ => r end.

(** [Wire.requestFrom(addr, quantity)]: the receive buffer is refilled with
    the peripheral's next answer, [quantity] bytes of it at most. *)
Definition Wire_requestFrom (addr quantity : Z) : M unit :=
  fun m =>
    (tt, set_wire (take (Z.to_nat quantity) (next_reply m))
           (tail (wire_replies m))
           (set_trace (trace m ++ [I2cRequest addr quantity]) m)).

(** [Wire.read()]: the next byte of the receive buffer, [-1] when it is
    empty. *)
Definition Wire_read : M Z :=
  fun m =>
    match wire_rx m with
    | [] => (-1, m)
    | b :: rx => (b, set_wire rx (wire_replies m) m)
    end.

(** *** The UDP socket and the serial port *)

Definition udp_beginPacket (ip : Z * Z * Z * Z) (port : Z) : M unit :=
  emit (UdpBegin ip port).
Definition udp_write (s : string) : M unit := emit (UdpWrite s).
Definition udp_endPacket : M unit := emit UdpEnd.
Definition Serial_print (msg : list piece) : M unit := emit (SerialPrint msg).
Definition Serial_println (msg : list piece) : M unit := emit (SerialPrintln msg).

(** *** C strings *)

(** Storing an [int] into a [char]: the low eight bits. *)
Definition char_of_int (z : Z) : ascii := ascii_of_N (Z.to_N (z mod 256)).

(** The [String] built from a pointer to [char]: the characters before the
    first zero byte. *)
Fixpoint String_of_cstr (p : list ascii) : string :=
  match p with
  | [] => EmptyString
  | c :: q => if Ascii.eqb c zero then EmptyString
              else String c (String_of_cstr q)
  end.

(** [char reading[response_size]], not initialised: the cells hold what the
    stack held.  The list is the memory from [reading[0]] on; it is padded
    with the zero bytes that follow [stack] so that every cell of the array
    is a position of the list. *)
Definition alloca_reading (response_size : Z) : M (list ascii) :=
  fun m => (stack m ++ replicate (Z.to_nat response_size) zero, m).

(** ** Floating point

    [double] is IEEE binary64 and [float] binary32, both with the default
    round-to-nearest-even, as [spec_float] values of the Standard Library's
    executable specification of IEEE arithmetic. *)

Module Float.

Definition double_prec : Z := 53.
Definition double_emax : Z := 1024.
Definition float_prec : Z := 24.
Definition float_emax : Z := 128.

(** The conversion of a [double] to a [float] (a store into
    [last_reading], the initialiser of [delta_to_publish]). *)
Definition to_float (x : spec_float) : spec_float :=
  match x with
  | S754_finite s m e => binary_round float_prec float_emax s m e
  | _ => x
  end.

(** The promotion of a [float] to a [double]: the value is kept, the
    mantissa is brought to 53 bits. *)
Definition to_double (x : spec_float) : spec_float :=
  match x with
  | S754_finite s m e => binary_round double_prec double_emax s m e
  | _ => x
  end.

(** [x - y], [fabs(x)] and [x > y] on [double]. *)
Definition sub (x y : spec_float) : spec_float :=
  SFsub double_prec double_emax x y.
Definition fabs (x : spec_float) : spec_float := SFabs x.
Definition gt (x y : spec_float) : bool := SFltb y x.

(** The [double] nearest to [m * 10 ^ e10], signed by [neg]. *)
Definition of_decimal (neg : bool) (m e10 : Z) : spec_float :=
  match m with
  | Zpos p =>
      if 0 <=? e10
      then binary_round double_prec double_emax neg
             (p * Z.to_pos (10 ^ e10)) 0
      else SFdiv double_prec double_emax
             (S754_finite neg p 0)
             (S754_finite false (Z.to_pos (10 ^ (- e10))) 0)
  | _ => S754_zero neg
  end.

(** The [double] nearest to [m * 2 ^ e2], signed by [neg]. *)
Definition of_binary (neg : bool) (m e2 : Z) : spec_float :=
  match m with
  | Zpos p => binary_round double_prec double_emax neg p e2
  | _ => S754_zero neg
  end.

End Float.

(** ** [atof]

    [atof(s)] is [strtod(s, NULL)]: white space is skipped, then an optional
    sign, then the longest prefix that is a decimal number, a hexadecimal
    number, an infinity or a NaN is converted; when there is none the result
    is zero. *)

Module Atof.

Definition isspace (c : ascii) : bool :=
  let n := N_of_ascii c in
  ((n =? 32) || ((9 <=? n) && (n <=? 13)))%N.

Definition digit (c : ascii) : option Z :=
  let n := Z.of_N (N_of_ascii c) in
  if (48 <=? n) && (n <=? 57) then Some (n - 48) else None.

Definition xdigit (c : ascii) : option Z :=
  let n := Z.of_N (N_of_ascii c) in
  if (48 <=? n) && (n <=? 57) then Some (n - 48)
  else if (97 <=? n) && (n <=? 102) then Some (n - 87)
  else if (65 <=? n) && (n <=? 70) then Some (n - 55)
  else None.

Definition tolower (c : ascii) : ascii :=
  let n := N_of_ascii c in
  if ((65 <=? n) && (n <=? 90))%N then ascii_of_N (n + 32) else c.

Fixpoint skip_space (s : string) : string :=
  match s with
  | String c r => if isspace c then skip_space r else s
  | EmptyString => s
  end.

(** Reads digits of base [base]: the number they extend [acc] to, how many
    were read, and what follows them. *)
Fixpoint scan (dig : ascii -> option Z) (base : Z) (s : string)
         (acc : Z) (count : Z) : Z * Z * string :=
  match s with
  | String c r =>
      match dig c with
      | Some d => scan dig base r (acc * base + d) (count + 1)
      | None => (acc, count, s)
      end
  | EmptyString => (acc, count, s)
  end.

(** [s] starts with [p], letter case ignored ([p] is in lower case). *)
Fixpoint prefix_nocase (p s : string) : bool :=
  match p, s with
  | EmptyString, _ => true
  | String a p', String b s' => Ascii.eqb a (tolower b) && prefix_nocase p' s'
  | String _ _, EmptyString => false
  end.

Definition sign (s : string) : bool * string :=
  match s with
  | String "-"%char r => (true, r)
  | String "+"%char r => (false, r)
  | _ => (false, s)
  end.

(** The exponent part [e[+-]ddd] (mark [e] or [p], in lower case); it
    counts only when a digit follows. *)
Definition exponent (mark : ascii) (s : string) : Z :=
  match s with
  | String c r =>
      if Ascii.eqb (tolower c) mark then
        let (neg, r') := sign r in
        let '(v, n, _) := scan digit 10 r' 0 0 in
        if n =? 0 then 0 else if neg then - v else v
      else 0
  | EmptyString => 0
  end.

(** Mantissa digits with an optional radix point: the integer they spell
    without the point, how many digits there are in all, how many behind
    the point, and what follows. *)
Definition mantissa (dig : ascii -> option Z) (base : Z) (s : string)
  : Z * Z * Z * string :=
  let '(i, ni, r) := scan dig base s 0 0 in
  match r with
  | String "."%char r' =>
      let '(f, nf, r'') := scan dig base r' i 0 in
      (f, ni + nf, nf, r'')
  | _ => (i, ni, 0, r)
  end.

Definition decimal (neg : bool) (s : string) : spec_float :=
  let '(m, n, nf, r) := mantissa digit 10 s in
  if n =? 0 then S754_zero false
  else Float.of_decimal neg m (exponent "e"%char r - nf).

Definition hexadecimal (neg : bool) (s : string) : option spec_float :=
  let '(m, n, nf, r) := mantissa xdigit 16 s in
  if n =? 0 then None
  else Some (Float.of_binary neg m (exponent "p"%char r - 4 * nf)).

Definition strtod (s : string) : spec_float :=
  let (neg, r) := sign (skip_space s) in
  if prefix_nocase "inf" r then S754_infinity neg
  else if prefix_nocase "nan" r then S754_nan
  else if prefix_nocase "0x" r then
    match hexadecimal neg (substring 2 (String.length r - 2) r) with
    | Some x => x
    | None => decimal neg r
    end
  else decimal neg r.

End Atof.

Definition atof (s : string) : spec_float := Atof.strtod s.

(** ** Globals and pointers *)

(** [unsigned int udp_local_port = 8888;] *)
Definition udp_local_port : Z := 8888.

(** [IPAddress remoteIP(159, 203, 144, 95);] *)
Definition remoteIP : Z * Z * Z * Z := (159, 203, 144, 95).

(** [float delta_to_publish = 0.05;]: the [double] constant [0.05] stored
    into a [float]. *)
Definition delta_to_publish : spec_float :=
  Float.to_float (Float.of_decimal false 5 (-2)).

(** The sketch has one [atlas_chip] object, the global [ph_chip]; a pointer
    to an [atlas_chip] is the address of that object. *)
Inductive chip_ptr := addr_ph_chip.

Definition read_ph_chip : M atlas_chip := fun m => (ph_chip m, m).
Definition read_last_reading : M spec_float := fun m => (last_reading m, m).
Definition read_device_id : M string := fun m => (device_id m, m).
Definition write_last_reading (x : spec_float) : M unit :=
  fun m => (tt, set_last_reading x m).

(** [*chip] and [chip->data = s]. *)
Definition deref (chip : chip_ptr) : M atlas_chip :=
  match chip with addr_ph_chip => read_ph_chip end.

Definition assign_data (chip : chip_ptr) (s : string) : M unit :=
  match chip with
  | addr_ph_chip =>
      fun m => let c := ph_chip m in
               (tt, set_ph_chip (mk_chip (type c) (mode c) (address c) s) m)
  end.

(** ** The plain-serial sketch, [atlas-statsd.ino] *)

Module Plain.

Local Open Scope string_scope.

(* The [int] and [byte] arguments are integers of [Z]: the sketch computes
   on them only [response_size - 1] and the loop counters below it, and its
   callers pass sizes from 0 to 32. *)

(** The loop of [case 1]:
    [for (byte_num = 0; byte_num < response_size - 1; byte_num = byte_num + 1)
       reading[byte_num] = Wire.read();]
    with [count] iterations still to run. *)
Fixpoint read_response (count : nat) (byte_num : nat) (reading : list ascii)
  : M (list ascii) :=
  match count with
  | O => ret reading
  | S k =>
      b <- Wire_read ;;
      read_response k (S byte_num) (<[byte_num := char_of_int b]> reading)
  end.

Definition chip_command (command : string)
           (chip_address read_delay response_size : Z) : M string :=
  let response_data := "" in
  reading <- alloca_reading response_size ;;
  Wire_beginTransmission chip_address ;;
  Wire_write command ;;
  Wire_endTransmission ;;
  delay read_delay ;;
  if (response_size =? 0)%Z then ret response_data
  else
    Wire_requestFrom chip_address response_size ;;
    response_code <- Wire_read ;;
    match response_code with
    | 1 =>
        reading <- read_response (Z.to_nat (response_size - 1)) 0 reading ;;
        ret (String_of_cstr reading)
    | 2 => ret "Request Failed"
    | 254 => ret "Pending - the request is still being processed. Ensure that you have waited the minimum time to guarantee a repsonse"
    | 255 => ret "No Data - there is no pending request, so there is no data to return from the circuit"
    | _ => ret response_data
    end.

Definition get_reading (chip : chip_ptr) : M unit :=
  c <- deref chip ;;
  match type c with
  | ph =>
      r <- chip_command "R" (address c) 1000 7 ;; assign_data chip r
  | ec =>
      r <- chip_command "R" (address c) 1000 32 ;; assign_data chip r
  | orp =>
      r <- chip_command "R" (address c) 1000 8 ;; assign_data chip r
  | dissolved_oxygen =>
      r <- chip_command "R" (address c) 1000 14 ;; assign_data chip r
  end.

Definition publish_data (data : string) : M unit :=
  udp_beginPacket remoteIP udp_local_port ;;
  id <- read_device_id ;;
  udp_write ("aqpncs." ++ id ++ ":" ++ data ++ "|g") ;;
  udp_endPacket.

Definition chip_sleep (chip : atlas_chip) : M unit :=
  let sleep_command := "SLEEP" in
  let processing_delay := 300 in
  let expected_response := 0 in
  _ <- chip_command sleep_command (address chip)
         processing_delay expected_response ;;
  ret tt.

Definition chip_wake (chip : atlas_chip) : M unit :=
  Serial_println [Lit "Waking up "; Int (chip_type_value (type chip));
                  Lit " chip"] ;;
  let required_readings := 4 in
  let required_readings :=
    if chip_type_eqb (type chip) dissolved_oxygen then 16
    else required_readings in
  Serial_println [Lit "Dumping "; Int required_readings; Lit " readings"] ;;
  repeatM (Z.to_nat required_readings)
          (_ <- chip_command "R" (address chip) 1000 0 ;; ret tt).

Definition loop : M unit :=
  Serial_println [Lit "Waking up chip"] ;;
  chip <- read_ph_chip ;;
  chip_wake chip ;;
  last <- read_last_reading ;;
  Serial_println [Lit "Last reading: "; Flt last] ;;
  get_reading addr_ph_chip ;;
  chip <- read_ph_chip ;;
  Serial_println [Lit "This reading: "; Lit (data chip)] ;;
  last <- read_last_reading ;;
  (if Float.gt (Float.fabs (Float.sub (atof (data chip))
                                      (Float.to_double last)))
               (Float.to_double delta_to_publish)
   then
     write_last_reading (Float.to_float (atof (data chip))) ;;
     Serial_println
       [Lit "Detected sensor change greater than configured delta"] ;;
     Serial_println [Lit "Updating EEPROM with last sensor reading"] ;;
     publish_data (data chip)
   else ret tt) ;;
  Serial_println [Lit "Putting chip to sleep"] ;;
  chip <- read_ph_chip ;;
  chip_sleep chip ;;
  delay 15000 ;;
  Serial_println [Lit "Sleeping for 10 seconds"].

End Plain.

(** ** The sketch with the [DEBUG_PRINT] macro

    [DEBUG_ENABLED] tells whether the macro of that name is defined when the
    sketch is built (the source has the [#define] commented out). *)

Module Macro.

Local Open Scope string_scope.

Section Build.

Variable DEBUG_ENABLED : bool.

(** [DEBUG_PRINT(str)] in function [fn] at line [line] of the file. *)
Definition DEBUG_PRINT (fn : string) (line : Z) (str : list piece)
  : M unit :=
  if DEBUG_ENABLED then
    Serial_print [Millis] ;;
    Serial_print [Lit ": "] ;;
    Serial_print [Lit fn] ;;
    Serial_print [Lit " "] ;;
    Serial_print [Int line] ;;
    Serial_print [Lit " "] ;;
    Serial_println str
  else ret tt.

Fixpoint read_response (count : nat) (byte_num : nat)
         (reading : list ascii) : M (list ascii) :=
  match count with
  | O => ret reading
  | S k =>
      b <- Wire_read ;;
      read_response k (S byte_num) (<[byte_num := char_of_int b]> reading)
  end.

Definition chip_command (command : string)
           (chip_address read_delay response_size : Z) : M string :=
  let response_data := "" in
  reading <- alloca_reading response_size ;;
  Wire_beginTransmission chip_address ;;
  Wire_write command ;;
  Wire_endTransmission ;;
  delay read_delay ;;
  if (response_size =? 0)%Z then ret response_data
  else
    Wire_requestFrom chip_address response_size ;;
    response_code <- Wire_read ;;
    match response_code with
    | 1 =>
        reading <- read_response (Z.to_nat (response_size - 1)) 0 reading ;;
        ret (String_of_cstr reading)
    | 2 => ret "Request Failed"
    | 254 => ret "Pending - the request is still being processed. Ensure that you have waited the minimum time to guarantee a repsonse"
    | 255 => ret "No Data - there is no pending request, so there is no data to return from the circuit"
    | _ => ret response_data
    end.

Definition get_reading (chip : chip_ptr) : M unit :=
  c <- deref chip ;;
  match type c with
  | ph =>
      r <- chip_command "R" (address c) 1000 7 ;; assign_data chip r
  | ec =>
      r <- chip_command "R" (address c) 1000 32 ;; assign_data chip r
  | orp =>
      r <- chip_command "R" (address c) 1000 8 ;; assign_data chip r
  | dissolved_oxygen =>
      r <- chip_command "R" (address c) 1000 14 ;; assign_data chip r
  end.

Definition publish_data (data : string) : M unit :=
  udp_beginPacket remoteIP udp_local_port ;;
  id <- read_device_id ;;
  udp_write ("aqpncs." ++ id ++ ":" ++ data ++ "|g") ;;
  udp_endPacket.

Definition chip_sleep (chip : atlas_chip) : M unit :=
  let sleep_command := "SLEEP" in
  let processing_delay := 300 in
  let expected_response := 0 in
  _ <- chip_command sleep_command (address chip)
         processing_delay expected_response ;;
  ret tt.

Definition chip_wake (chip : atlas_chip) : M unit :=
  DEBUG_PRINT "void chip_wake(atlas_chip)" 149
    [Lit "Waking up "; Int (chip_type_value (type chip)); Lit " chip"] ;;
  let required_readings := 4 in
  let required_readings :=
    if chip_type_eqb (type chip) dissolved_oxygen then 16
    else required_readings in
  DEBUG_PRINT "void chip_wake(atlas_chip)" 159
    [Lit "Dumping "; Int required_readings; Lit " readings"] ;;
  repeatM (Z.to_nat required_readings)
          (_ <- chip_command "R" (address chip) 1000 0 ;; ret tt).

Definition loop : M unit :=
  DEBUG_PRINT "void loop()" 194 [Lit "Start of loop()"] ;;
  DEBUG_PRINT "void loop()" 195
    [Lit "Waking up atlas chip from low power state"] ;;
  chip <- read_ph_chip ;;
  chip_wake chip ;;
  last <- read_last_reading ;;
  DEBUG_PRINT "void loop()" 197 [Lit "Last reading: "; Flt last] ;;
  get_reading addr_ph_chip ;;
  chip <- read_ph_chip ;;
  DEBUG_PRINT "void loop()" 199 [Lit "This reading: "; Lit (data chip)] ;;
  last <- read_last_reading ;;
  (if Float.gt (Float.fabs (Float.sub (atof (data chip))
                                      (Float.to_double last)))
               (Float.to_double delta_to_publish)
   then
     write_last_reading (Float.to_float (atof (data chip))) ;;
     DEBUG_PRINT "void loop()" 204
       [Lit "New sensor reading differs from last reading more than configured delta"] ;;
     publish_data (data chip)
   else ret tt) ;;
  DEBUG_PRINT "void loop()" 208
    [Lit "Putting atlas chip into low power mode"] ;;
  chip <- read_ph_chip ;;
  chip_sleep chip ;;
  DEBUG_PRINT "void loop()" 210 [Lit "Putting electron into deep sleep"] ;;
  emit (DeepSleep 900).

End Build.

End Macro.

(** ** Observing a run *)

(** What a run from [m] to [m'] added to the trace. *)
Definition events_since (m m' : machine) : list event :=
  drop (length (trace m)) (trace m').

Definition is_serial (e : event) : bool :=
  match e with SerialPrint _ | SerialPrintln _ => true | _ => false end.

Definition is_request (e : event) : bool :=
  match e with I2cRequest _ _ => true | _ => false end.

(** The trace without the serial (debug) output. *)
Definition quiet (tr : list event) : list event :=
  List.filter (fun e => negb (is_serial e)) tr.

(** The bus traffic of one command: [command] written to [addr], the settle
    delay, and the read request when a response is expected. *)
Definition transaction (command : string) (addr ms size : Z) : list event :=
  [I2cBegin addr; I2cWrite command; I2cEnd; Delay ms] ++
  (if size =? 0 then [] else [I2cRequest addr size]).

(** The datagrams a trace sends: [beginPacket] opens a packet to an
    endpoint, [write] appends to its payload, [endPacket] sends it. *)
Record datagram := mk_datagram {
  dst_ip : Z * Z * Z * Z;
  dst_port : Z;
  payload : string
}.

Fixpoint datagrams_from (pending : option datagram) (tr : list event)
  : list datagram :=
  match tr with
  | [] => []
  | UdpBegin ip port :: tr' =>
      datagrams_from (Some (mk_datagram ip port "")) tr'
  | UdpWrite s :: tr' =>
      datagrams_from
        (match pending with
         | Some d => Some (mk_datagram (dst_ip d) (dst_port d)
                                       (payload d ++ s)%string)
         | None => None
         end) tr'
  | UdpEnd :: tr' =>
      match pending with
      | Some d => d :: datagrams_from None tr'
      | None => datagrams_from None tr'
      end
  | _ :: tr' => datagrams_from pending tr'
  end.

Definition datagrams (tr : list event) : list datagram :=
  datagrams_from None tr.

(** The statsd gauge line of the specification,
    ["<namespace>.<deviceId>:<value>|g"] with namespace ["aqpncs"]. *)
Definition gauge_line (deviceId value : string) : string :=
  ("aqpncs" ++ "." ++ deviceId ++ ":" ++ value ++ "|g")%string.

(** The per-type response sizes of the specification:
    pH 7, EC 32, ORP 8, dissolved oxygen 14. *)
Definition response_size_of (t : chip_type) : Z :=
  match t with ph => 7 | ec => 32 | orp => 8 | dissolved_oxygen => 14 end.

(** The number of purge readings of the specification: 16 for dissolved
    oxygen, 4 otherwise. *)
Definition purge_count (t : chip_type) : nat :=
  match t with dissolved_oxygen => 16%nat | _ => 4%nat end.

(** ** Closed forms, observations and the words of the specification *)

(** The fixed texts of the transport. *)
Definition request_failed_text : string := "Request Failed".
Definition pending_text : string :=
  "Pending - the request is still being processed. Ensure that you have waited the minimum time to guarantee a repsonse".
Definition no_data_text : string :=
  "No Data - there is no pending request, so there is no data to return from the circuit".

(** What a command makes of the bytes [rx] its read request fetched, with
    [stk] the stale contents of its array: the text it returns and the bytes
    it leaves in the receive buffer. *)
Definition response (size : Z) (stk : list ascii) (rx : list Z)
  : string * list Z :=
  let code := match rx with [] => -1 | b :: _ => b end in
  let rest := tail rx in
  match code with
  | 1 =>
      let k := Z.to_nat (size - 1) in
      (String_of_cstr
         (map char_of_int (take k (rest ++ replicate k (-1)))
            ++ drop k (stk ++ replicate (Z.to_nat size) zero)),
       drop k rest)
  | 2 => (request_failed_text, rest)
  | 254 => (pending_text, rest)
  | 255 => (no_data_text, rest)
  | _ => (EmptyString, rest)
  end.

Definition after_command (command : string) (addr ms size : Z)
           (m : machine) : string * machine :=
  if size =? 0
  then (EmptyString, set_trace (trace m ++ transaction command addr ms size) m)
  else
    let r := response size (stack m) (take (Z.to_nat size) (next_reply m)) in
    (fst r,
     mk_machine (trace m ++ transaction command addr ms size)
                (snd r) (tail (wire_replies m)) (stack m)
                (ph_chip m) (last_reading m) (device_id m)).

(** One purge reading of [chip_wake]. *)
Definition purge (addr : Z) : list event := transaction "R" addr 1000 0.

(** What [DEBUG_PRINT] sends to the serial port. *)
Definition debug_events (dbg : bool) (fn : string) (line : Z)
           (msg : list piece) : list event :=
  if dbg
  then [SerialPrint [Millis]; SerialPrint [Lit ": "]; SerialPrint [Lit fn];
        SerialPrint [Lit " "]; SerialPrint [Int line]; SerialPrint [Lit " "];
        SerialPrintln msg]
  else [].

(** The three calls of [publish_data]. *)
Definition publish_events (id value : string) : list event :=
  [UdpBegin remoteIP udp_local_port; UdpWrite (gauge_line id value); UdpEnd].

(** The machine a measurement leaves: the bus traffic of the command, and
    its text stored in [ph_chip.data]. *)
Definition after_reading (m : machine) : machine :=
  let c := ph_chip m in
  let r := after_command "R" (address c) 1000 (response_size_of (type c)) m in
  set_ph_chip (mk_chip (type c) (mode c) (address c) (fst r)) (snd r).

(** The decision of the cycle: the reading, parsed, is further from the
    retained value than [delta_to_publish]. *)
Definition exceeds (reading : string) (last : spec_float) : bool :=
  Float.gt (Float.fabs (Float.sub (atof reading) (Float.to_double last)))
           (Float.to_double delta_to_publish).

(** The text the measurement of a cycle started in [m] yields. *)
Definition measured (m : machine) : string := data (ph_chip (after_reading m)).

(** What a cycle puts on the bus and on the network, serial output and the
    final pause left out. *)
Definition cycle_events (m : machine) : list event :=
  let c := ph_chip m in
  concat (replicate (purge_count (type c)) (purge (address c)))
    ++ transaction "R" (address c) 1000 (response_size_of (type c))
    ++ (if exceeds (measured m) (last_reading m)
        then publish_events (device_id m) (measured m) else [])
    ++ transaction "SLEEP" (address c) 300 0.

(** The machine a cycle leaves, but for its trace. *)
Definition after_cycle (tr : list event) (m : machine) : machine :=
  let m1 := after_reading m in
  mk_machine tr (wire_rx m1) (wire_replies m1) (stack m) (ph_chip m1)
             (if exceeds (measured m) (last_reading m)
              then Float.to_float (atof (measured m))
              else last_reading m)
             (device_id m).

Definition Plain_loop_events (m : machine) : list event :=
  let c := ph_chip m in
  [SerialPrintln [Lit "Waking up chip"];
   SerialPrintln [Lit "Waking up "; Int (chip_type_value (type c));
                  Lit " chip"];
   SerialPrintln [Lit "Dumping "; Int (Z.of_nat (purge_count (type c)));
                  Lit " readings"]]
    ++ concat (replicate (purge_count (type c)) (purge (address c)))
    ++ [SerialPrintln [Lit "Last reading: "; Flt (last_reading m)]]
    ++ transaction "R" (address c) 1000 (response_size_of (type c))
    ++ [SerialPrintln [Lit "This reading: "; Lit (measured m)]]
    ++ (if exceeds (measured m) (last_reading m)
        then [SerialPrintln
                [Lit "Detected sensor change greater than configured delta"];
              SerialPrintln [Lit "Updating EEPROM with last sensor reading"]]
               ++ publish_events (device_id m) (measured m)
        else [])
    ++ [SerialPrintln [Lit "Putting chip to sleep"]]
    ++ transaction "SLEEP" (address c) 300 0
    ++ [Delay 15000; SerialPrintln [Lit "Sleeping for 10 seconds"]].

Definition Macro_loop_events (dbg : bool) (m : machine) : list event :=
  let c := ph_chip m in
  debug_events dbg "void loop()" 194 [Lit "Start of loop()"]
    ++ debug_events dbg "void loop()" 195
         [Lit "Waking up atlas chip from low power state"]
    ++ debug_events dbg "void chip_wake(atlas_chip)" 149
         [Lit "Waking up "; Int (chip_type_value (type c)); Lit " chip"]
    ++ debug_events dbg "void chip_wake(atlas_chip)" 159
         [Lit "Dumping "; Int (Z.of_nat (purge_count (type c)));
          Lit " readings"]
    ++ concat (replicate (purge_count (type c)) (purge (address c)))
    ++ debug_events dbg "void loop()" 197 [Lit "Last reading: "; Flt (last_reading m)]
    ++ transaction "R" (address c) 1000 (response_size_of (type c))
    ++ debug_events dbg "void loop()" 199 [Lit "This reading: "; Lit (measured m)]
    ++ (if exceeds (measured m) (last_reading m)
        then debug_events dbg "void loop()" 204
               [Lit "New sensor reading differs from last reading more than configured delta"]
               ++ publish_events (device_id m) (measured m)
        else [])
    ++ debug_events dbg "void loop()" 208 [Lit "Putting atlas chip into low power mode"]
    ++ transaction "SLEEP" (address c) 300 0
    ++ debug_events dbg "void loop()" 210 [Lit "Putting electron into deep sleep"]
    ++ [DeepSleep 900].

Module Spec.

(** The text of a successful response as the specification has it: the
    [n - 1] bytes behind the status byte, decoded, up to the first zero
    byte among them. *)
Definition success_text (n : Z) (reply : list Z) : string :=
  String_of_cstr (map char_of_int (take (Z.to_nat (n - 1)) (tail reply))).

(** The text for the other status codes as the specification has it. *)
Definition status_text (code : Z) : string :=
  if code =? 2 then request_failed_text
  else if code =? 254 then pending_text
  else if code =? 255 then no_data_text
  else EmptyString.

End Spec.

(** The failing input: a pH chip that answers the seven bytes of
    [1 "10.000"], no zero byte among them, to a command run where the seventh
    cell of the array was left holding ["A"]. *)
Definition unterminated_reply : list Z := [1; 49; 48; 46; 48; 48; 48].

Definition unterminated_machine : machine :=
  mk_machine [] [] [unterminated_reply]
             (replicate 6 zero ++ ["A"%char])
             (mk_chip ph i2c 99 EmptyString) (S754_zero false) EmptyString.

(** How often [command] is written to the bus in a trace. *)
Definition commands_written (command : string) (tr : list event) : nat :=
  length (List.filter
            (fun e => match e with
                      | I2cWrite s => String.eqb s command
                      | _ => false
                      end) tr).

(** The texts [chip_command] returns when the status is not success. *)
Definition error_texts : list string :=
  [request_failed_text; pending_text; no_data_text; EmptyString].

(** A machine with the serial output taken out of its trace. *)
Definition silent (m : machine) : machine := set_trace (quiet (trace m)) m.

(** A pH chip at address 0x63 that answers [reply] to the measurement of
    the cycle, with [last] retained from the cycle before. *)
Definition cycle_start (reply : list Z) (last : spec_float) : machine :=
  mk_machine [] [] [reply] [] (mk_chip ph i2c 99 EmptyString) last "dev".

Definition seven : spec_float := Float.to_float (atof "7.00").

(** Status 2 and nothing else. *)
Definition failed_reply : list Z := [2].

(** [1 "7.02" 0] and [1 "7.10" 0]. *)
Definition reply_7_02 : list Z := [1; 55; 46; 48; 50; 0].
Definition reply_7_10 : list Z := [1; 55; 46; 49; 48; 0].

(** ** Start-up

    [setup] runs once when the board boots, before the first [loop].  Besides
    the bus and the serial port it starts three libraries and may ask the
    cloud for the identity of the device. *)

(** Which of [udp_client.begin], [Wire.begin] and [Serial.begin] have been
    called, and with what. *)
Record peripherals := mk_peripherals {
  udp_port : option Z;
  wire_joined : bool;
  serial_baud : option Z
}.

(** The board as it powers up: nothing started. *)
Definition unstarted : peripherals := mk_peripherals None false None.

Definition udp_begin (port : Z) (p : peripherals) : peripherals :=
  mk_peripherals (Some port) (wire_joined p) (serial_baud p).
Definition Wire_begin (p : peripherals) : peripherals :=
  mk_peripherals (udp_port p) true (serial_baud p).
Definition Serial_begin (baud : Z) (p : peripherals) : peripherals :=
  mk_peripherals (udp_port p) (wire_joined p) (Some baud).

Definition set_device_id (id : string) (m : machine) : machine :=
  mk_machine (trace m) (wire_rx m) (wire_replies m) (stack m)
             (ph_chip m) (last_reading m) id.

Definition write_device_id (id : string) : M unit :=
  fun m => (tt, set_device_id id m).

(** [setup] of [atlas-statsd.ino].  [deviceID] is what [Particle.deviceID()]
    answers, [p] the state of the libraries when the board boots. *)
Module PlainBoot.

Local Open Scope string_scope.

Definition setup (deviceID : string) (p : peripherals) : M peripherals :=
  id <- read_device_id ;;
  Serial_println [Lit "device_id: "; Lit id] ;;
  id <- read_device_id ;;
  (if String.eqb id "" then
     Serial_println [Lit "device id not in sram, pulling from cloud"] ;;
     write_device_id deviceID ;;
     id <- read_device_id ;;
     Serial_println [Lit "got: "; Lit id]
   else
     id <- read_device_id ;;
     Serial_println [Lit "found device id in sram: "; Lit id]) ;;
  let p := udp_begin udp_local_port p in
  let p := Wire_begin p in
  let p := Serial_begin 9600 p in
  last <- read_last_reading ;;
  Serial_println [Lit "Starting up, last reading from sram is: "; Flt last] ;;
  chip <- read_ph_chip ;;
  Wire_beginTransmission (address chip) ;;
  Wire_write "L,1" ;;
  Wire_endTransmission ;;
  delay 300 ;;
  chip <- read_ph_chip ;;
  Wire_beginTransmission (address chip) ;;
  Wire_write "L,0" ;;
  Wire_endTransmission ;;
  delay 300 ;;
  chip <- read_ph_chip ;;
  Wire_beginTransmission (address chip) ;;
  Wire_write "L,1" ;;
  Wire_endTransmission ;;
  delay 300 ;;
  ret p.

(** The sketch as the runtime runs it: [setup], then [loop] again and again;
    here its first [n] cycles. *)
Definition sketch (n : nat) (deviceID : string) (p : peripherals)
  : M peripherals :=
  p <- setup deviceID p ;;
  repeatM n Plain.loop ;;
  ret p.

End PlainBoot.

(** [setup] of the sketch with the [DEBUG_PRINT] macro. *)
Module MacroBoot.

Local Open Scope string_scope.

Section Build.

Variable DEBUG_ENABLED : bool.

Definition setup (deviceID : string) (p : peripherals) : M peripherals :=
  Macro.DEBUG_PRINT DEBUG_ENABLED "void setup()" 169
    [Lit "Start of setup()"] ;;
  id <- read_device_id ;;
  (if String.eqb id "" then
     write_device_id deviceID ;;
     id <- read_device_id ;;
     Macro.DEBUG_PRINT DEBUG_ENABLED "void setup()" 172
       [Lit "Did not find device id in sram so got it from cloud: "; Lit id]
   else
     id <- read_device_id ;;
     Macro.DEBUG_PRINT DEBUG_ENABLED "void setup()" 174
       [Lit "found device id in sram: "; Lit id]) ;;
  let p := udp_begin udp_local_port p in
  let p := Wire_begin p in
  if DEBUG_ENABLED then
    let p := Serial_begin 9600 p in
    chip <- read_ph_chip ;;
    Wire_beginTransmission (address chip) ;;
    Wire_write "L,1" ;;
    Wire_endTransmission ;;
    ret p
  else
    chip <- read_ph_chip ;;
    Wire_beginTransmission (address chip) ;;
    Wire_write "L,0" ;;
    Wire_endTransmission ;;
    ret p.

End Build.

End MacroBoot.

(** ** More ways to look at a run *)

(** The packet left open at the end of a trace. *)
Fixpoint pending_after (pending : option datagram) (tr : list event)
  : option datagram :=
  match tr with
  | [] => pending
  | UdpBegin ip port :: tr' =>
      pending_after (Some (mk_datagram ip port "")) tr'
  | UdpWrite s :: tr' =>
      pending_after
        (match pending with
         | Some d => Some (mk_datagram (dst_ip d) (dst_port d)
                                       (payload d ++ s)%string)
         | None => None
         end) tr'
  | UdpEnd :: tr' => pending_after None tr'
  | _ :: tr' => pending_after pending tr'
  end.

(** The read requests of a trace. *)
Definition requests (tr : list event) : list event :=
  List.filter is_request tr.

(** What is written to the bus in a trace, in order. *)
Fixpoint written (tr : list event) : list string :=
  match tr with
  | [] => []
  | I2cWrite s :: tr' => s :: written tr'
  | _ :: tr' => written tr'
  end.

(** The bytes a successful command stores: the next [size - 1] of the answer
    behind the status byte, [-1] for each one the answer lacks. *)
Definition stored_bytes (size : Z) (payload : list Z) : list ascii :=
  let k := Z.to_nat (size - 1) in
  map char_of_int (take k (payload ++ replicate k (-1))).

(** The first [n] cycles of the plain-serial sketch. *)
Definition cycles (n : nat) : M unit := repeatM n Plain.loop.

(** The device id [setup] leaves: the one retained, or the cloud's when
    none is. *)
Definition cached_id (deviceID : string) (m : machine) : string :=
  if String.eqb (device_id m) "" then deviceID else device_id m.

(** One command for the debug LED of the chip. *)
Definition led (addr : Z) (command : string) : list event :=
  [I2cBegin addr; I2cWrite command; I2cEnd].

Definition Plain_setup_events (deviceID : string) (m : machine)
  : list event :=
  [SerialPrintln [Lit "device_id: "; Lit (device_id m)]]
    ++ (if String.eqb (device_id m) ""
        then [SerialPrintln [Lit "device id not in sram, pulling from cloud"];
              SerialPrintln [Lit "got: "; Lit deviceID]]
        else [SerialPrintln [Lit "found device id in sram: ";
                            Lit (device_id m)]])
    ++ [SerialPrintln [Lit "Starting up, last reading from sram is: ";
                      Flt (last_reading m)]]
    ++ led (address (ph_chip m)) "L,1" ++ [Delay 300]
    ++ led (address (ph_chip m)) "L,0" ++ [Delay 300]
    ++ led (address (ph_chip m)) "L,1" ++ [Delay 300].

Definition Macro_setup_events (dbg : bool) (deviceID : string) (m : machine)
  : list event :=
  debug_events dbg "void setup()" 169 [Lit "Start of setup()"]
    ++ (if String.eqb (device_id m) ""
        then debug_events dbg "void setup()" 172
               [Lit "Did not find device id in sram so got it from cloud: ";
                Lit deviceID]
        else debug_events dbg "void setup()" 174
               [Lit "found device id in sram: "; Lit (device_id m)])
    ++ led (address (ph_chip m)) (if dbg then "L,1" else "L,0").

(** A board on its first boot: nothing retained, the chip about to answer
    [reply]; and an id for the cloud to give. *)
Definition first_boot (reply : list Z) : machine :=
  mk_machine [] [] [reply] [] (mk_chip ph i2c 99 EmptyString)
             (S754_zero false) EmptyString.

Definition sample_id : string := "2f0031000a47".
Definition other_id : string := "3a0027001247".

(** A datagram for the collector that reports a value of device [id]. *)
Definition is_gauge_of (id : string) (d : datagram) : Prop :=
  dst_ip d = remoteIP /\ dst_port d = udp_local_port
  /\ exists value : string, payload d = gauge_line id value.

(** ** Basic facts about the machine and the monad *)

Lemma machine_eta (m : machine) :
  mk_machine (trace m) (wire_rx m) (wire_replies m) (stack m)
             (ph_chip m) (last_reading m) (device_id m) = m.
Proof. destruct m; reflexivity. Qed.

Lemma set_trace_app (t1 t2 : list event) (m : machine) :
  set_trace (trace (set_trace t1 m) ++ t2) (set_trace t1 m)
  = set_trace (t1 ++ t2) m.
Proof. reflexivity. Qed.

Lemma events_since_app (m m' : machine) (evs : list event) :
  trace m' = trace m ++ evs -> events_since m m' = evs.
Proof.
  intros H. unfold events_since. rewrite H.
  apply drop_app_length.
Qed.

Lemma quiet_app (t1 t2 : list event) : quiet (t1 ++ t2) = quiet t1 ++ quiet t2.
Proof. apply List.filter_app. Qed.

Lemma bind_run {A B} (c : M A) (k : A -> M B) (m m' : machine) (a : A) :
  c m = (a, m') -> bind c k m = k a m'.
Proof. intros H. unfold bind. rewrite H. reflexivity. Qed.

Lemma emit_run (e : event) (m : machine) :
  emit e m = (tt, set_trace (trace m ++ [e]) m).
Proof. reflexivity. Qed.

(** A loop whose body only adds [evs] to the trace adds them [n] times. *)
Lemma repeatM_emits (body : M unit) (evs : list event) :
  (forall m, body m = (tt, set_trace (trace m ++ evs) m)) ->
  forall (n : nat) (m : machine),
    repeatM n body m
    = (tt, set_trace (trace m ++ concat (replicate n evs)) m).
Proof.
  intros Hbody n. induction n as [|n IH]; intros m; simpl.
  - unfold ret. rewrite app_nil_r. unfold set_trace. now rewrite machine_eta.
  - rewrite (bind_run _ _ _ _ _ (Hbody m)). rewrite IH.
    unfold set_trace; simpl. now rewrite <- app_assoc.
Qed.

(** ** The transport in closed form *)

(** The [switch] on the response code has five outcomes. *)
Lemma status_cases (code : Z) :
  code = 1 \/ code = 2 \/ code = 254 \/ code = 255 \/
  (code <> 1 /\ code <> 2 /\ code <> 254 /\ code <> 255 /\
   forall (A : Type) (a b c d e : A),
     match code with 1 => a | 2 => b | 254 => c | 255 => d | _ => e end = e).
Proof.
  destruct code as [|p|p].
  - right; right; right; right. repeat split; try discriminate.
  - do 8 (try (destruct p as [p|p|]));
      first [ left; reflexivity
            | right; left; reflexivity
            | right; right; left; reflexivity
            | right; right; right; left; reflexivity
            | right; right; right; right; repeat split; discriminate ].
  - right; right; right; right. repeat split; try discriminate.
Qed.

(** Padding beyond the bytes taken does not show. *)
Lemma take_padded {A} (x : A) (l : list A) :
  forall k j : nat,
    take k (l ++ replicate (k + j) x) = take k (l ++ replicate k x).
Proof.
  induction l as [|a l IH]; intros k j; simpl.
  - rewrite !take_replicate. f_equal. lia.
  - destruct k as [|k]; simpl; [reflexivity|].
    f_equal. replace (x :: replicate (k + j) x) with (replicate (k + S j) x)
      by (now rewrite Nat.add_succ_r).
    replace (x :: replicate k x) with (replicate (k + 1) x)
      by (now rewrite Nat.add_1_r).
    now rewrite !IH.
Qed.

(** What [case 1] leaves in the array and in the receive buffer: the next
    [count] bytes of the buffer ([-1] once it is exhausted) overwrite the
    cells from [byte_num] on. *)
Lemma Plain_read_response_run (count : nat) :
  forall (byte_num : nat) (reading : list ascii) (m : machine),
    (byte_num + count <= length reading)%nat ->
    Plain.read_response count byte_num reading m
    = (take byte_num reading
         ++ map char_of_int (take count (wire_rx m ++ replicate count (-1)))
         ++ drop (byte_num + count) reading,
       set_wire (drop count (wire_rx m)) (wire_replies m) m).
Proof.
  induction count as [|k IH]; intros i rd m Hlen.
  - simpl. rewrite Nat.add_0_r, take_drop, drop_0.
    unfold ret, set_wire. now rewrite machine_eta.
  - cbn [Plain.read_response].
    assert (Hi : (i < length rd)%nat) by lia.
    assert (Hstep : forall c : ascii,
               take (S i) (<[i:=c]> rd) = take i rd ++ [c]).
    { intros c.
      rewrite (take_S_r _ _ c) by (now apply list_lookup_insert_eq).
      now rewrite take_insert_ge by lia. }
    assert (Hdrop : forall c : ascii,
               drop (S i + k) (<[i:=c]> rd) = drop (i + S k) rd).
    { intros c. rewrite drop_insert_lt by lia. f_equal. lia. }
    unfold bind, Wire_read. destruct (wire_rx m) as [|b rx] eqn:Hrx.
    + rewrite IH by (rewrite length_insert; lia).
      rewrite Hstep, Hdrop, Hrx. simpl.
      rewrite drop_nil. now rewrite <- app_assoc.
    + rewrite IH by (rewrite length_insert; lia).
      rewrite Hstep, Hdrop. simpl.
      change (-1 :: replicate k (-1)) with (replicate (S k) (-1)).
      rewrite <- (Nat.add_1_r k), take_padded.
      unfold set_wire; simpl. now rewrite <- app_assoc.
Qed.

Ltac fields :=
  cbn [trace wire_rx wire_replies stack ph_chip last_reading device_id
       set_trace set_wire set_ph_chip set_last_reading fst snd] in *.

(** The closed form is reached the same way in both sketches, from what is
    known of their [read_response]. *)
Ltac chip_command_closed read_response_run :=
  unfold after_command, transaction;
  unfold bind at 1; unfold alloca_reading;
  unfold Wire_beginTransmission, Wire_write, Wire_endTransmission, delay;
  do 4 (unfold bind at 1; rewrite emit_run; rewrite ?set_trace_app);
  match goal with
  | |- context [?size =? 0] => destruct (size =? 0)
  end;
  [ unfold ret; now rewrite <- !app_assoc
  | unfold bind at 1; unfold Wire_requestFrom;
    unfold bind at 1; unfold Wire_read;
    match goal with
    | m : machine |- _ =>
        change (next_reply (set_trace ?t m)) with (next_reply m)
    end;
    fields; rewrite <- !app_assoc; simpl app;
    unfold response;
    match goal with
    | |- context [take ?n (next_reply ?m)] =>
        let code := fresh "code" in
        let rest := fresh "rest" in
        let H := fresh "H" in
        destruct (take n (next_reply m)) as [|code rest];
        [ reflexivity
        | cbn [tail];
          destruct (status_cases code)
            as [->|[->|[->|[->|(_ & _ & _ & _ & H)]]]];
          [ unfold bind; rewrite read_response_run;
            [ reflexivity | rewrite length_app, length_replicate; lia ]
          | reflexivity | reflexivity | reflexivity
          | now rewrite !H ] ]
    end ].

Lemma Plain_chip_command_run (command : string) (addr ms size : Z)
      (m : machine) :
  Plain.chip_command command addr ms size m
  = after_command command addr ms size m.
Proof.
  unfold Plain.chip_command. chip_command_closed Plain_read_response_run.
Qed.

(** ** The two sketches run the same transport *)

Lemma Macro_read_response_eq (count : nat) :
  forall (byte_num : nat) (reading : list ascii) (m : machine),
    Macro.read_response count byte_num reading m
    = Plain.read_response count byte_num reading m.
Proof.
  induction count as [|k IH]; intros i rd m; simpl; [reflexivity|].
  unfold bind. destruct (Wire_read m) as [b m']. apply IH.
Qed.

Lemma Macro_read_response_run (count byte_num : nat) (reading : list ascii)
      (m : machine) :
  (byte_num + count <= length reading)%nat ->
  Macro.read_response count byte_num reading m
  = (take byte_num reading
       ++ map char_of_int (take count (wire_rx m ++ replicate count (-1)))
       ++ drop (byte_num + count) reading,
     set_wire (drop count (wire_rx m)) (wire_replies m) m).
Proof.
  rewrite Macro_read_response_eq. apply Plain_read_response_run.
Qed.

Lemma Macro_chip_command_run (command : string) (addr ms size : Z)
      (m : machine) :
  Macro.chip_command command addr ms size m
  = after_command command addr ms size m.
Proof.
  unfold Macro.chip_command. chip_command_closed Macro_read_response_run.
Qed.

Lemma Macro_chip_command_eq (command : string) (addr ms size : Z)
      (m : machine) :
  Macro.chip_command command addr ms size m
  = Plain.chip_command command addr ms size m.
Proof. now rewrite Macro_chip_command_run, Plain_chip_command_run. Qed.

(** ** The controller and the publisher in closed form *)

Lemma DEBUG_PRINT_run (dbg : bool) (fn : string) (line : Z)
      (msg : list piece) (m : machine) :
  Macro.DEBUG_PRINT dbg fn line msg m
  = (tt, set_trace (trace m ++ debug_events dbg fn line msg) m).
Proof.
  unfold Macro.DEBUG_PRINT, debug_events. destruct dbg.
  - unfold bind, Serial_print, Serial_println, emit. fields.
    now rewrite <- !app_assoc.
  - unfold ret, set_trace. now rewrite app_nil_r, machine_eta.
Qed.

Lemma debug_events_quiet (dbg : bool) (fn : string) (line : Z)
      (msg : list piece) :
  quiet (debug_events dbg fn line msg) = [].
Proof. now destruct dbg. Qed.

Lemma Plain_purge_run (addr : Z) (m : machine) :
  (_ <- Plain.chip_command "R" addr 1000 0 ;; ret tt) m
  = (tt, set_trace (trace m ++ purge addr) m).
Proof. unfold bind. now rewrite Plain_chip_command_run. Qed.

Lemma Macro_purge_run (addr : Z) (m : machine) :
  (_ <- Macro.chip_command "R" addr 1000 0 ;; ret tt) m
  = (tt, set_trace (trace m ++ purge addr) m).
Proof. unfold bind. now rewrite Macro_chip_command_run. Qed.

Lemma required_readings_count (t : chip_type) :
  Z.to_nat (if chip_type_eqb t dissolved_oxygen then 16 else 4)
  = purge_count t.
Proof. now destruct t. Qed.

Lemma Plain_chip_wake_run (chip : atlas_chip) (m : machine) :
  Plain.chip_wake chip m
  = (tt, set_trace
           (trace m
              ++ [SerialPrintln [Lit "Waking up ";
                                 Int (chip_type_value (type chip));
                                 Lit " chip"];
                  SerialPrintln [Lit "Dumping ";
                                 Int (Z.of_nat (purge_count (type chip)));
                                 Lit " readings"]]
              ++ concat (replicate (purge_count (type chip))
                                   (purge (address chip)))) m).
Proof.
  unfold Plain.chip_wake.
  unfold bind at 1. unfold Serial_println at 1. rewrite emit_run.
  unfold bind at 1. unfold Serial_println at 1. rewrite emit_run.
  rewrite required_readings_count.
  rewrite (repeatM_emits _ _ (Plain_purge_run (address chip))).
  fields. rewrite <- !app_assoc.
  now destruct (type chip).
Qed.

Lemma Macro_chip_wake_run (dbg : bool) (chip : atlas_chip) (m : machine) :
  Macro.chip_wake dbg chip m
  = (tt, set_trace
           (trace m
              ++ debug_events dbg "void chip_wake(atlas_chip)" 149
                   [Lit "Waking up "; Int (chip_type_value (type chip));
                    Lit " chip"]
              ++ debug_events dbg "void chip_wake(atlas_chip)" 159
                   [Lit "Dumping "; Int (Z.of_nat (purge_count (type chip)));
                    Lit " readings"]
              ++ concat (replicate (purge_count (type chip))
                                   (purge (address chip)))) m).
Proof.
  unfold Macro.chip_wake.
  unfold bind at 1. rewrite DEBUG_PRINT_run.
  unfold bind at 1. rewrite DEBUG_PRINT_run.
  rewrite required_readings_count.
  rewrite (repeatM_emits _ _ (Macro_purge_run (address chip))).
  fields. rewrite <- !app_assoc.
  now destruct (type chip).
Qed.

Lemma Plain_chip_sleep_run (chip : atlas_chip) (m : machine) :
  Plain.chip_sleep chip m
  = (tt, set_trace (trace m ++ transaction "SLEEP" (address chip) 300 0) m).
Proof. unfold Plain.chip_sleep, bind. now rewrite Plain_chip_command_run. Qed.

Lemma Macro_chip_sleep_run (chip : atlas_chip) (m : machine) :
  Macro.chip_sleep chip m
  = (tt, set_trace (trace m ++ transaction "SLEEP" (address chip) 300 0) m).
Proof. unfold Macro.chip_sleep, bind. now rewrite Macro_chip_command_run. Qed.

Lemma Plain_publish_data_run (value : string) (m : machine) :
  Plain.publish_data value m
  = (tt, set_trace (trace m ++ publish_events (device_id m) value) m).
Proof.
  unfold Plain.publish_data, bind, udp_beginPacket, udp_write, udp_endPacket,
    read_device_id, emit. fields. now rewrite <- !app_assoc.
Qed.

Lemma Macro_publish_data_run (value : string) (m : machine) :
  Macro.publish_data value m
  = (tt, set_trace (trace m ++ publish_events (device_id m) value) m).
Proof.
  unfold Macro.publish_data, bind, udp_beginPacket, udp_write, udp_endPacket,
    read_device_id, emit. fields. now rewrite <- !app_assoc.
Qed.

Lemma after_command_ph_chip (command : string) (addr ms size : Z)
      (m : machine) :
  ph_chip (snd (after_command command addr ms size m)) = ph_chip m.
Proof. unfold after_command. now destruct (size =? 0). Qed.

Lemma Plain_get_reading_run (chip : chip_ptr) (m : machine) :
  Plain.get_reading chip m = (tt, after_reading m).
Proof.
  destruct chip. unfold Plain.get_reading, after_reading.
  unfold bind at 1. unfold deref, read_ph_chip.
  destruct (type (ph_chip m)) eqn:Ht; unfold bind;
    rewrite Plain_chip_command_run;
    unfold after_command, response_size_of;
    match goal with
    | |- context [?n =? 0] => change (n =? 0) with false
    end;
    cbv iota; unfold assign_data; fields; rewrite Ht; reflexivity.
Qed.

Lemma Macro_get_reading_run (chip : chip_ptr) (m : machine) :
  Macro.get_reading chip m = (tt, after_reading m).
Proof.
  destruct chip. unfold Macro.get_reading, after_reading.
  unfold bind at 1. unfold deref, read_ph_chip.
  destruct (type (ph_chip m)) eqn:Ht; unfold bind;
    rewrite Macro_chip_command_run;
    unfold after_command, response_size_of;
    match goal with
    | |- context [?n =? 0] => change (n =? 0) with false
    end;
    cbv iota; unfold assign_data; fields; rewrite Ht; reflexivity.
Qed.

(** ** The main cycle in closed form *)

Lemma after_reading_set_trace (t : list event) (m : machine) :
  after_reading (set_trace t m)
  = set_trace (t ++ transaction "R" (address (ph_chip m)) 1000
                      (response_size_of (type (ph_chip m))))
              (after_reading m).
Proof.
  unfold after_reading, after_command. fields.
  change (next_reply (set_trace t m)) with (next_reply m).
  now destruct (type (ph_chip m)).
Qed.

Lemma after_reading_fields (m : machine) :
  stack (after_reading m) = stack m
  /\ last_reading (after_reading m) = last_reading m
  /\ device_id (after_reading m) = device_id m
  /\ type (ph_chip (after_reading m)) = type (ph_chip m)
  /\ mode (ph_chip (after_reading m)) = mode (ph_chip m)
  /\ address (ph_chip (after_reading m)) = address (ph_chip m).
Proof.
  unfold after_reading, after_command.
  now destruct (type (ph_chip m)).
Qed.

Lemma set_trace_twice (t1 t2 : list event) (m : machine) :
  set_trace t1 (set_trace t2 m) = set_trace t1 m.
Proof. reflexivity. Qed.

Lemma Serial_println_run (msg : list piece) (m : machine) :
  Serial_println msg m = (tt, set_trace (trace m ++ [SerialPrintln msg]) m).
Proof. reflexivity. Qed.

Lemma delay_run (ms : Z) (m : machine) :
  delay ms m = (tt, set_trace (trace m ++ [Delay ms]) m).
Proof. reflexivity. Qed.

Lemma read_ph_chip_run (m : machine) : read_ph_chip m = (ph_chip m, m).
Proof. reflexivity. Qed.

Lemma read_last_reading_run (m : machine) :
  read_last_reading m = (last_reading m, m).
Proof. reflexivity. Qed.

Lemma write_last_reading_run (x : spec_float) (m : machine) :
  write_last_reading x m = (tt, set_last_reading x m).
Proof. reflexivity. Qed.

(** One statement of a sketch: the command at the head is run with what is
    known of it; [step] opens the first [bind] before. *)
Ltac run_head :=
  first [ rewrite Plain_chip_wake_run
        | rewrite Plain_get_reading_run
        | rewrite Plain_chip_sleep_run
        | rewrite Plain_publish_data_run
        | rewrite Macro_chip_wake_run
        | rewrite Macro_get_reading_run
        | rewrite Macro_chip_sleep_run
        | rewrite Macro_publish_data_run
        | rewrite DEBUG_PRINT_run
        | rewrite Serial_println_run
        | rewrite delay_run
        | rewrite emit_run
        | rewrite read_ph_chip_run
        | rewrite read_last_reading_run
        | rewrite write_last_reading_run ];
  cbv beta iota;
  rewrite ?after_reading_set_trace, ?set_trace_twice; fields.

Ltac step := unfold bind at 1; run_head.

(** The end of both proofs below: the two machines are compared field by
    field, the traces as lists of events. *)
Ltac same_machine m :=
  destruct (after_reading_fields m) as (Hs & Hl & Hd & Ht & Hm & Ha);
  unfold set_trace, set_last_reading; fields;
  rewrite ?Hs, ?Hl, ?Hd, ?Ha;
  f_equal; f_equal; rewrite <- ?app_assoc; cbn [app]; reflexivity.

Lemma Plain_loop_run (m : machine) :
  Plain.loop m = (tt, after_cycle (trace m ++ Plain_loop_events m) m).
Proof.
  unfold Plain.loop.
  do 9 step.
  unfold after_cycle, Plain_loop_events, exceeds, measured.
  replace (last_reading (after_reading m)) with (last_reading m)
    by (symmetry; apply after_reading_fields).
  unfold bind at 1.
  destruct (Float.gt _ _).
  - do 3 step. run_head. do 4 step. run_head. same_machine m.
  - unfold ret. do 4 step. run_head. same_machine m.
Qed.

Lemma Macro_loop_run (dbg : bool) (m : machine) :
  Macro.loop dbg m
  = (tt, after_cycle (trace m ++ Macro_loop_events dbg m) m).
Proof.
  unfold Macro.loop.
  do 10 step.
  unfold after_cycle, Macro_loop_events, exceeds, measured.
  replace (last_reading (after_reading m)) with (last_reading m)
    by (symmetry; apply after_reading_fields).
  unfold bind at 1.
  destruct (Float.gt _ _).
  - do 2 step. run_head. do 4 step. run_head. same_machine m.
  - unfold ret. do 4 step. run_head. same_machine m.
Qed.

(** ** Properties of the transport *)

Lemma events_since_set_trace (evs : list event) (m : machine) :
  events_since m (set_trace (trace m ++ evs) m) = evs.
Proof. now apply events_since_app. Qed.

(** C2. With a response size of zero, [chip_command] writes the command,
    waits the settle delay and returns the empty text: its whole effect is
    the four events of the write, none of them a read request, and the
    receive buffer and the pending replies are left as they were.  This holds
    for every command text, address and delay, in both sketches. *)
Theorem chip_command_no_response (command : string) (addr ms : Z)
        (m : machine) :
  let run := Plain.chip_command command addr ms 0 m in
  fst run = EmptyString
  /\ snd run
     = set_trace (trace m ++ [I2cBegin addr; I2cWrite command; I2cEnd;
                              Delay ms]) m
  /\ List.filter is_request (events_since m (snd run)) = []
  /\ Macro.chip_command command addr ms 0 m = run.
Proof.
  cbv zeta. rewrite Macro_chip_command_run, Plain_chip_command_run.
  unfold after_command, transaction. cbn [Z.eqb fst snd app].
  rewrite events_since_set_trace. repeat split.
Qed.

(** *** The text of a successful response *)

Lemma String_of_cstr_terminated (p q : list ascii) :
  In zero p -> String_of_cstr (p ++ q) = String_of_cstr p.
Proof.
  induction p as [|c p IH]; intros Hin; [contradiction|].
  simpl. destruct (Ascii.eqb c zero) eqn:Hc; [reflexivity|].
  destruct Hin as [Hz|Hin].
  - subst c. discriminate.
  - now rewrite IH.
Qed.

(** When the peripheral terminates its text within the [n - 1] bytes that
    are read, [chip_command] returns the text of the specification. *)
Lemma chip_command_terminated (command : string) (addr ms size : Z)
      (payload : list Z) (m : machine) :
  1 <= size ->
  next_reply m = 1 :: payload ->
  In zero (map char_of_int (take (Z.to_nat (size - 1)) payload)) ->
  eval (Plain.chip_command command addr ms size) m
  = Spec.success_text size (1 :: payload).
Proof.
  intros Hsize Hreply Hzero.
  unfold eval. rewrite Plain_chip_command_run. unfold after_command.
  destruct (size =? 0) eqn:H0; [lia|]. cbn [fst].
  rewrite Hreply. unfold Spec.success_text. cbn [tail].
  replace (Z.to_nat size) with (S (Z.to_nat (size - 1))) by lia.
  cbn [take]. unfold response. cbn [tail fst].
  set (k := Z.to_nat (size - 1)) in *.
  set (rest := take k payload) in *.
  assert (Hlen : (length rest <= k)%nat)
    by (unfold rest; rewrite length_take; lia).
  rewrite take_app_ge by exact Hlen.
  rewrite map_app, <- app_assoc.
  now apply String_of_cstr_terminated.
Qed.

(** C3. At the failing input the text returned is not the six bytes behind
    the status byte: the array is never terminated, and the text runs on
    into the cell the loop does not write. *)
Theorem chip_command_unterminated :
  eval (Plain.chip_command "R" 99 1000 7) unterminated_machine
  = "10.000A"%string
  /\ eval (Macro.chip_command "R" 99 1000 7) unterminated_machine
     = "10.000A"%string
  /\ Spec.success_text 7 unterminated_reply = "10.000"%string.
Proof. repeat split; vm_compute; reflexivity. Qed.

Lemma response_status (size code : Z) (stk : list ascii) (rest : list Z) :
  code <> 1 ->
  fst (response size stk (code :: rest)) = Spec.status_text code.
Proof.
  intros Hcode. unfold response. cbn [tail].
  destruct (status_cases code) as [->|[->|[->|[->|(_ & H2 & H3 & H4 & H)]]]];
    try reflexivity; [contradiction|].
  rewrite H. unfold Spec.status_text.
  now rewrite (proj2 (Z.eqb_neq _ _) H2), (proj2 (Z.eqb_neq _ _) H3),
    (proj2 (Z.eqb_neq _ _) H4).
Qed.

Lemma take_reply (size code : Z) (payload : list Z) :
  1 <= size ->
  take (Z.to_nat size) (code :: payload)
  = code :: take (Z.to_nat (size - 1)) payload.
Proof.
  intros Hsize.
  replace (Z.to_nat size) with (S (Z.to_nat (size - 1))) by lia.
  reflexivity.
Qed.

(** C5. With a response size of at least one, a leading status byte other
    than [1] selects the text returned: ["Request Failed"] for 2, the Pending
    text for 254, the No Data text for 255, and the empty text for every
    other code; in both sketches. *)
Theorem chip_command_status (command : string) (addr ms size code : Z)
        (payload : list Z) (m : machine) :
  1 <= size ->
  next_reply m = code :: payload ->
  code <> 1 ->
  eval (Plain.chip_command command addr ms size) m = Spec.status_text code
  /\ eval (Macro.chip_command command addr ms size) m = Spec.status_text code
  /\ Spec.status_text 2 = "Request Failed"%string
  /\ Spec.status_text 254 = pending_text
  /\ Spec.status_text 255 = no_data_text
  /\ (code <> 2 -> code <> 254 -> code <> 255 ->
      Spec.status_text code = EmptyString).
Proof.
  intros Hsize Hreply Hcode.
  unfold eval. rewrite Macro_chip_command_run, Plain_chip_command_run.
  unfold after_command.
  destruct (size =? 0) eqn:H0; [lia|]. cbn [fst].
  rewrite Hreply, take_reply by exact Hsize.
  rewrite response_status by exact Hcode.
  do 5 (split; [reflexivity|]).
  intros H2 H3 H4. unfold Spec.status_text.
  now rewrite (proj2 (Z.eqb_neq _ _) H2), (proj2 (Z.eqb_neq _ _) H3),
    (proj2 (Z.eqb_neq _ _) H4).
Qed.

(** ** Properties of the controller and the publisher *)

Lemma commands_written_purge (addr : Z) (n : nat) :
  commands_written "R" (concat (replicate n (purge addr))) = n.
Proof.
  induction n as [|n IH]; [reflexivity|].
  unfold commands_written in *. cbn [replicate concat].
  rewrite List.filter_app, length_app, IH. reflexivity.
Qed.

Lemma requests_purge (addr : Z) (n : nat) :
  List.filter is_request (concat (replicate n (purge addr))) = [].
Proof.
  induction n as [|n IH]; [reflexivity|].
  cbn [replicate concat]. rewrite List.filter_app, IH. reflexivity.
Qed.

Lemma quiet_purges (addr : Z) (n : nat) :
  quiet (concat (replicate n (purge addr))) = concat (replicate n (purge addr)).
Proof.
  induction n as [|n IH]; [reflexivity|].
  cbn [replicate concat]. rewrite quiet_app, IH. reflexivity.
Qed.

(** C4. Whatever the descriptor, the bus traffic of [chip_wake] is the purge
    command ["R"], with a settle delay of 1000 ms and no read request,
    repeated to the full count: 16 times for a dissolved oxygen chip and 4
    times for every other type; in both sketches, debugging on or off. *)
Theorem chip_wake_purges (dbg : bool) (chip : atlas_chip) (m : machine) :
  let n := match type chip with dissolved_oxygen => 16%nat | _ => 4%nat end in
  let plain := events_since m (exec (Plain.chip_wake chip) m) in
  let macro := events_since m (exec (Macro.chip_wake dbg chip) m) in
  quiet plain
  = concat (replicate n [I2cBegin (address chip); I2cWrite "R"; I2cEnd;
                         Delay 1000])
  /\ quiet macro = quiet plain
  /\ commands_written "R" plain = n
  /\ commands_written "R" macro = n
  /\ List.filter is_request plain = []
  /\ List.filter is_request macro = [].
Proof.
  cbv zeta. unfold exec.
  rewrite Plain_chip_wake_run, Macro_chip_wake_run. cbn [snd].
  rewrite !events_since_set_trace.
  change (match type chip with dissolved_oxygen => 16%nat | _ => 4%nat end)
    with (purge_count (type chip)).
  rewrite !quiet_app, !debug_events_quiet.
  unfold commands_written.
  rewrite !List.filter_app, !length_app.
  fold (commands_written "R"
          (concat (replicate (purge_count (type chip))
                             (purge (address chip))))).
  rewrite commands_written_purge, requests_purge.
  rewrite quiet_purges.
  destruct dbg; repeat split.
Qed.

(** C6. For every device id and value text, what [publish_data] does is one
    [beginPacket] to 159.203.144.95, port 8888, one [write] of the gauge line
    ["aqpncs.<deviceId>:<value>|g"] and one [endPacket]: a single datagram
    with that line as its payload; in both sketches. *)
Theorem publish_data_datagram (value : string) (m : machine) :
  let sent := events_since m (exec (Plain.publish_data value) m) in
  let line := ("aqpncs." ++ device_id m ++ ":" ++ value ++ "|g")%string in
  sent = [UdpBegin (159, 203, 144, 95) 8888; UdpWrite line; UdpEnd]
  /\ datagrams sent = [mk_datagram (159, 203, 144, 95) 8888 line]
  /\ exec (Plain.publish_data value) m = set_trace (trace m ++ sent) m
  /\ Macro.publish_data value m = Plain.publish_data value m.
Proof.
  cbv zeta. unfold exec.
  rewrite Macro_publish_data_run, Plain_publish_data_run. cbn [snd].
  rewrite events_since_set_trace. repeat split.
Qed.

(** C7. [get_reading] issues the command ["R"] to the chip's address with a
    settle delay of 1000 ms and the response size of the chip's type (pH 7,
    EC 32, ORP 8, dissolved oxygen 14), and stores the text the command
    returns into the chip's [data] field, whatever that field held; in both
    sketches. *)
Theorem get_reading_command (m : machine) :
  let c := ph_chip m in
  let size := match type c with
              | ph => 7 | ec => 32 | orp => 8 | dissolved_oxygen => 14
              end in
  let run := Plain.chip_command "R" (address c) 1000 size m in
  Plain.get_reading addr_ph_chip m
  = (tt, set_ph_chip (mk_chip (type c) (mode c) (address c) (fst run))
                     (snd run))
  /\ events_since m (exec (Plain.get_reading addr_ph_chip) m)
     = [I2cBegin (address c); I2cWrite "R"; I2cEnd; Delay 1000;
        I2cRequest (address c) size]
  /\ data (ph_chip (exec (Plain.get_reading addr_ph_chip) m)) = fst run
  /\ Macro.get_reading addr_ph_chip m = Plain.get_reading addr_ph_chip m.
Proof.
  cbv zeta. unfold exec.
  rewrite Macro_get_reading_run, Plain_get_reading_run.
  change (match type (ph_chip m) with
          | ph => 7 | ec => 32 | orp => 8 | dissolved_oxygen => 14
          end) with (response_size_of (type (ph_chip m))).
  rewrite Plain_chip_command_run. cbn [snd].
  unfold after_reading.
  split; [reflexivity|]. split; [|split; reflexivity].
  apply events_since_app.
  unfold after_command. now destruct (type (ph_chip m)).
Qed.

(** C10. [chip_wake] and [chip_sleep] work on a copy of the descriptor: the
    caller's chip is what it was, in all four fields, also when the copy is
    one of that very chip.  [get_reading] leaves the type, the mode and the
    address of the chip it is pointed at as they were.  In both sketches. *)
Theorem controller_frame (dbg : bool) (chip : atlas_chip) (m : machine) :
  ph_chip (exec (Plain.chip_wake chip) m) = ph_chip m
  /\ ph_chip (exec (Plain.chip_wake (ph_chip m)) m) = ph_chip m
  /\ ph_chip (exec (Plain.chip_sleep chip) m) = ph_chip m
  /\ ph_chip (exec (Plain.chip_sleep (ph_chip m)) m) = ph_chip m
  /\ ph_chip (exec (Macro.chip_wake dbg chip) m) = ph_chip m
  /\ ph_chip (exec (Macro.chip_sleep chip) m) = ph_chip m
  /\ (let c := ph_chip (exec (Plain.get_reading addr_ph_chip) m) in
      type c = type (ph_chip m)
      /\ mode c = mode (ph_chip m)
      /\ address c = address (ph_chip m))
  /\ (let c := ph_chip (exec (Macro.get_reading addr_ph_chip) m) in
      type c = type (ph_chip m)
      /\ mode c = mode (ph_chip m)
      /\ address c = address (ph_chip m)).
Proof.
  unfold exec.
  rewrite !Plain_chip_wake_run, !Plain_chip_sleep_run, Macro_chip_wake_run,
    ?Macro_chip_sleep_run, !Plain_get_reading_run, ?Macro_get_reading_run.
  cbn [snd]. repeat split; apply after_reading_fields.
Qed.

(** ** Properties of the main cycle *)

Lemma datagrams_cycle (m : machine) :
  datagrams (cycle_events m)
  = if exceeds (measured m) (last_reading m)
    then [mk_datagram remoteIP udp_local_port
                      (gauge_line (device_id m) (measured m))]
    else [].
Proof.
  unfold cycle_events.
  destruct (exceeds _ _); now destruct (type (ph_chip m)).
Qed.

Lemma quiet_transaction (command : string) (addr ms size : Z) :
  quiet (transaction command addr ms size) = transaction command addr ms size.
Proof. unfold transaction. now destruct (size =? 0). Qed.

Lemma Plain_loop_quiet (m : machine) :
  quiet (Plain_loop_events m) = cycle_events m ++ [Delay 15000].
Proof.
  unfold Plain_loop_events, cycle_events.
  rewrite !quiet_app, quiet_purges, !quiet_transaction.
  rewrite <- !app_assoc.
  now destruct (exceeds _ _).
Qed.

Lemma Macro_loop_quiet (dbg : bool) (m : machine) :
  quiet (Macro_loop_events dbg m) = cycle_events m ++ [DeepSleep 900].
Proof.
  unfold Macro_loop_events, cycle_events.
  rewrite !quiet_app, quiet_purges, !quiet_transaction.
  rewrite !debug_events_quiet.
  destruct (exceeds _ _).
  - rewrite quiet_app, debug_events_quiet. cbn [app].
    now rewrite <- !app_assoc.
  - cbn [app]. now rewrite <- !app_assoc.
Qed.

(** Serial output carries no datagram, nor does a last event other than an
    [endPacket]. *)
Lemma datagrams_from_quiet (tr : list event) :
  forall pending, datagrams_from pending (quiet tr) = datagrams_from pending tr.
Proof.
  induction tr as [|e tr IH]; intros pending; [reflexivity|].
  destruct e; cbn [quiet List.filter is_serial negb datagrams_from];
    fold (quiet tr); try destruct pending; rewrite ?IH; reflexivity.
Qed.

Lemma datagrams_pause (tr : list event) (e : event) :
  e <> UdpEnd ->
  forall pending, datagrams_from pending (tr ++ [e]) = datagrams_from pending tr.
Proof.
  intros He.
  induction tr as [|x tr IH]; intros pending.
  - destruct e; try reflexivity. now destruct He.
  - destruct x; cbn [app datagrams_from]; try destruct pending;
      rewrite ?IH; reflexivity.
Qed.

Lemma Plain_loop_datagrams (m : machine) :
  datagrams (Plain_loop_events m) = datagrams (cycle_events m).
Proof.
  unfold datagrams.
  rewrite <- datagrams_from_quiet, Plain_loop_quiet.
  now apply datagrams_pause.
Qed.

Lemma Macro_loop_datagrams (dbg : bool) (m : machine) :
  datagrams (Macro_loop_events dbg m) = datagrams (cycle_events m).
Proof.
  unfold datagrams.
  rewrite <- datagrams_from_quiet, Macro_loop_quiet.
  now apply datagrams_pause.
Qed.

Lemma events_since_after_cycle (evs : list event) (m : machine) :
  events_since m (after_cycle (trace m ++ evs) m) = evs.
Proof. now apply events_since_app. Qed.

Lemma measured_command (m : machine) :
  measured m
  = eval (Plain.chip_command "R" (address (ph_chip m)) 1000
                             (response_size_of (type (ph_chip m)))) m.
Proof.
  unfold eval. rewrite Plain_chip_command_run. reflexivity.
Qed.

(** What a cycle decides, in both sketches: the reading stored, the
    datagrams sent and the value retained. *)
Lemma cycle_outcome (dbg : bool) (m : machine) :
  let line := mk_datagram remoteIP udp_local_port
                          (gauge_line (device_id m) (measured m)) in
  let over := exceeds (measured m) (last_reading m) in
  let retained :=
    if over then Float.to_float (atof (measured m)) else last_reading m in
  (data (ph_chip (exec Plain.loop m)) = measured m
   /\ datagrams (events_since m (exec Plain.loop m))
      = (if over then [line] else [])
   /\ last_reading (exec Plain.loop m) = retained)
  /\ (data (ph_chip (exec (Macro.loop dbg) m)) = measured m
      /\ datagrams (events_since m (exec (Macro.loop dbg) m))
         = (if over then [line] else [])
      /\ last_reading (exec (Macro.loop dbg) m) = retained).
Proof.
  cbv zeta. unfold exec. rewrite Plain_loop_run, Macro_loop_run. cbn [snd].
  rewrite !events_since_after_cycle.
  rewrite Plain_loop_datagrams, Macro_loop_datagrams, datagrams_cycle.
  repeat split.
Qed.

(** C1. In a cycle the reading is the text the measurement command returns.
    A datagram is sent exactly when [fabs(atof(reading) - last_reading)]
    is greater than [delta_to_publish], the [float] 0.05, and it is then the
    gauge line of that reading; [last_reading] becomes the parsed reading
    (stored as a [float]) in that case and keeps its value otherwise.  In
    both sketches. *)
Theorem loop_threshold (dbg : bool) (m : machine) :
  let reading :=
    eval (Plain.chip_command "R" (address (ph_chip m)) 1000
                             (response_size_of (type (ph_chip m)))) m in
  let over :=
    Float.gt (Float.fabs (Float.sub (atof reading)
                                    (Float.to_double (last_reading m))))
             (Float.to_double delta_to_publish) in
  let line := mk_datagram remoteIP udp_local_port
                          (gauge_line (device_id m) reading) in
  let plain := exec Plain.loop m in
  let macro := exec (Macro.loop dbg) m in
  data (ph_chip plain) = reading
  /\ data (ph_chip macro) = reading
  /\ datagrams (events_since m plain) = (if over then [line] else [])
  /\ datagrams (events_since m macro) = (if over then [line] else [])
  /\ last_reading plain
     = (if over then Float.to_float (atof reading) else last_reading m)
  /\ last_reading macro
     = (if over then Float.to_float (atof reading) else last_reading m)
  /\ (over = true <-> datagrams (events_since m plain) <> [])
  /\ (over = true <-> datagrams (events_since m macro) <> []).
Proof.
  cbv zeta. rewrite <- measured_command.
  fold (exceeds (measured m) (last_reading m)).
  destruct (cycle_outcome dbg m) as ((Hd & Hs & Hl) & (Hd' & Hs' & Hl')).
  rewrite Hd, Hd', Hs, Hs', Hl, Hl'.
  do 6 (split; [reflexivity|]).
  destruct (exceeds _ _); split; split; congruence.
Qed.

Lemma atof_error_text (s : string) :
  In s error_texts -> atof s = S754_zero false.
Proof.
  intros [<-|[<-|[<-|[<-|[]]]]]; vm_compute; reflexivity.
Qed.

(** C8. When the measurement of a cycle returns one of the error texts (or
    the empty text), [atof] makes it zero, as it does of the reading ["0"]:
    the cycle compares [fabs(0 - last_reading)] with [delta_to_publish], and
    when that is greater it sends the error text itself in the gauge line
    and retains zero.  In both sketches. *)
Theorem error_reading_is_zero (dbg : bool) (m : machine) :
  let reading :=
    eval (Plain.chip_command "R" (address (ph_chip m)) 1000
                             (response_size_of (type (ph_chip m)))) m in
  let over :=
    Float.gt (Float.fabs (Float.sub (S754_zero false)
                                    (Float.to_double (last_reading m))))
             (Float.to_double delta_to_publish) in
  let line := mk_datagram remoteIP udp_local_port
                          (gauge_line (device_id m) reading) in
  let plain := exec Plain.loop m in
  let macro := exec (Macro.loop dbg) m in
  In reading error_texts ->
  atof reading = S754_zero false
  /\ atof reading = atof "0"
  /\ datagrams (events_since m plain) = (if over then [line] else [])
  /\ datagrams (events_since m macro) = (if over then [line] else [])
  /\ last_reading plain = (if over then S754_zero false else last_reading m)
  /\ last_reading macro = (if over then S754_zero false else last_reading m).
Proof.
  cbv zeta. rewrite <- measured_command. intros Herr.
  pose proof (atof_error_text _ Herr) as Hzero.
  destruct (cycle_outcome dbg m) as ((_ & Hs & Hl) & (_ & Hs' & Hl')).
  rewrite Hs, Hs', Hl, Hl'. unfold exceeds. rewrite Hzero.
  repeat split.
Qed.

(** ** The two sketches compared *)

(** C9. From the same machine, that is the same retained state, chip and
    bus responses, the two sketches agree: [chip_command], [get_reading],
    [publish_data] and [chip_sleep] return the same and leave the same
    machine; [chip_wake] leaves the same machine but for serial output; and a
    cycle puts the same events on the bus and the network, sends the same
    datagrams and leaves the same receive buffer, pending replies, chip,
    retained reading and device id.  Besides serial output the cycles differ
    in their last step only, a [delay] of 15 s against a deep sleep of
    900 s. *)
Theorem variants_equivalent (dbg : bool) (m : machine) :
  (forall command addr ms size,
      Macro.chip_command command addr ms size m
      = Plain.chip_command command addr ms size m)
  /\ (forall chip, Macro.get_reading chip m = Plain.get_reading chip m)
  /\ (forall value, Macro.publish_data value m = Plain.publish_data value m)
  /\ (forall chip, Macro.chip_sleep chip m = Plain.chip_sleep chip m)
  /\ (forall chip,
         silent (exec (Macro.chip_wake dbg chip) m)
         = silent (exec (Plain.chip_wake chip) m))
  /\ (let plain := exec Plain.loop m in
      let macro := exec (Macro.loop dbg) m in
      quiet (events_since m plain) = cycle_events m ++ [Delay 15000]
      /\ quiet (events_since m macro) = cycle_events m ++ [DeepSleep 900]
      /\ datagrams (events_since m macro) = datagrams (events_since m plain)
      /\ wire_rx macro = wire_rx plain
      /\ wire_replies macro = wire_replies plain
      /\ ph_chip macro = ph_chip plain
      /\ last_reading macro = last_reading plain
      /\ device_id macro = device_id plain).
Proof.
  split; [intros; now rewrite Macro_chip_command_run, Plain_chip_command_run|].
  split; [intros; now rewrite Macro_get_reading_run, Plain_get_reading_run|].
  split; [intros; now rewrite Macro_publish_data_run, Plain_publish_data_run|].
  split; [intros; now rewrite Macro_chip_sleep_run, Plain_chip_sleep_run|].
  split.
  - intros chip. unfold exec, silent.
    rewrite Macro_chip_wake_run, Plain_chip_wake_run. cbn [snd].
    unfold set_trace; fields. f_equal.
    rewrite !quiet_app, !debug_events_quiet. reflexivity.
  - cbv zeta. unfold exec. rewrite Plain_loop_run, Macro_loop_run. cbn [snd].
    rewrite !events_since_after_cycle.
    rewrite Plain_loop_quiet, Macro_loop_quiet.
    rewrite Plain_loop_datagrams, Macro_loop_datagrams.
    repeat split.
Qed.

(** ** The theorems at work *)

Lemma chip_command_status_witness :
  1 <= 7
  /\ next_reply (cycle_start failed_reply seven) = 2 :: []
  /\ 2 <> 1
  /\ eval (Plain.chip_command "R" 99 1000 7) (cycle_start failed_reply seven)
     = "Request Failed"%string.
Proof.
  split; [lia|]. split; [reflexivity|]. split; [discriminate|].
  apply (chip_command_status "R" 99 1000 7 2 [] (cycle_start failed_reply seven));
    [lia | reflexivity | discriminate].
Defined.

Lemma error_reading_is_zero_witness :
  In (eval (Plain.chip_command "R" 99 1000 7) (cycle_start failed_reply seven))
     error_texts
  /\ atof (eval (Plain.chip_command "R" 99 1000 7)
                (cycle_start failed_reply seven)) = S754_zero false
  /\ datagrams (events_since (cycle_start failed_reply seven)
                             (exec Plain.loop (cycle_start failed_reply seven)))
     = [mk_datagram (159, 203, 144, 95) 8888 "aqpncs.dev:Request Failed|g"]
  /\ last_reading (exec Plain.loop (cycle_start failed_reply seven))
     = S754_zero false.
Proof.
  assert (Herr : In (eval (Plain.chip_command "R" 99 1000 7)
                          (cycle_start failed_reply seven)) error_texts)
    by (left; reflexivity).
  destruct (error_reading_is_zero false (cycle_start failed_reply seven) Herr)
    as (Hzero & _ & Hsent & _ & Hlast & _).
  split; [exact Herr|]. split; [exact Hzero|].
  split; [exact Hsent | exact Hlast].
Defined.

(** The threshold is the [float] next to 0.05, 13421773 / 2^28. *)
Example delta_to_publish_value :
  delta_to_publish = S754_finite false 13421773 (-28)
  /\ Float.to_double delta_to_publish
     = S754_finite false 7205759511166976 (-57).
Proof. split; vm_compute; reflexivity. Qed.

(** The scenarios of the specification: with 7.00 retained, a reading of
    ["7.02"] sends nothing and leaves 7.00 retained; a reading of ["7.10"]
    sends its gauge line and is retained. *)
Example scenario_below_threshold :
  datagrams (trace (exec Plain.loop (cycle_start reply_7_02 seven))) = []
  /\ last_reading (exec Plain.loop (cycle_start reply_7_02 seven)) = seven
  /\ data (ph_chip (exec Plain.loop (cycle_start reply_7_02 seven)))
     = "7.02"%string.
Proof. repeat split; vm_compute; reflexivity. Qed.

Example scenario_above_threshold :
  datagrams (trace (exec Plain.loop (cycle_start reply_7_10 seven)))
  = [mk_datagram (159, 203, 144, 95) 8888 "aqpncs.dev:7.10|g"]
  /\ last_reading (exec Plain.loop (cycle_start reply_7_10 seven))
     = Float.to_float (atof "7.10")
  /\ datagrams (trace (exec (Macro.loop true) (cycle_start reply_7_10 seven)))
     = [mk_datagram (159, 203, 144, 95) 8888 "aqpncs.dev:7.10|g"].
Proof. repeat split; vm_compute; reflexivity. Qed.


(** ** More on the transport *)

Lemma String_of_cstr_zeros (p : list ascii) (n : nat) :
  String_of_cstr (p ++ replicate n zero) = String_of_cstr p.
Proof.
  induction p as [|c p IH]; simpl.
  - now destruct n.
  - now rewrite IH.
Qed.

Lemma String_of_cstr_run_on (p q : list ascii) :
  ~ In zero p ->
  String_of_cstr (p ++ q)
  = (string_of_list_ascii p ++ String_of_cstr q)%string.
Proof.
  induction p as [|c p IH]; intros Hno; [reflexivity|].
  simpl. destruct (Ascii.eqb c zero) eqn:Hc.
  - apply Ascii.eqb_eq in Hc. destruct Hno. now left.
  - rewrite IH; [reflexivity|]. intros Hin. apply Hno. now right.
Qed.

Lemma String_of_cstr_shorter (p : list ascii) :
  In zero p -> (String.length (String_of_cstr p) < length p)%nat.
Proof.
  induction p as [|c p IH]; intros Hin; [contradiction|].
  simpl. destruct (Ascii.eqb c zero) eqn:Hc; simpl; [lia|].
  destruct Hin as [->|Hin]; [discriminate|].
  specialize (IH Hin). lia.
Qed.

Lemma take_take_app {A} (k : nat) (l r : list A) :
  take k (take k l ++ r) = take k (l ++ r).
Proof.
  revert l. induction k as [|k IH]; intros [|a l]; simpl; try reflexivity.
  now rewrite IH.
Qed.

Lemma drop_stack_zeros (k n : nat) (stk : list ascii) :
  String_of_cstr (drop k (stk ++ replicate n zero))
  = String_of_cstr (drop k stk).
Proof.
  rewrite drop_app, drop_replicate. apply String_of_cstr_zeros.
Qed.

(** The text of a successful command, whatever the answer holds. *)
Lemma success_text_run (command : string) (addr ms size : Z)
      (payload : list Z) (m : machine) :
  1 <= size ->
  next_reply m = 1 :: payload ->
  eval (Plain.chip_command command addr ms size) m
  = String_of_cstr (stored_bytes size payload
                      ++ drop (Z.to_nat (size - 1)) (stack m
                           ++ replicate (Z.to_nat size) zero)).
Proof.
  intros Hsize Hreply.
  unfold eval. rewrite Plain_chip_command_run. unfold after_command.
  destruct (size =? 0) eqn:H0; [lia|]. cbn [fst].
  rewrite Hreply, take_reply by exact Hsize.
  unfold response, stored_bytes. cbn [tail fst].
  now rewrite take_take_app.
Qed.

(** X1. A successful answer without a zero byte among the bytes stored: the
    text is those bytes followed by whatever text the stack held behind
    them.  Both sketches. *)
Theorem chip_command_runs_into_stack (command : string) (addr ms size : Z)
        (payload : list Z) (m : machine) :
  1 <= size ->
  next_reply m = 1 :: payload ->
  ~ In zero (stored_bytes size payload) ->
  eval (Plain.chip_command command addr ms size) m
  = (string_of_list_ascii (stored_bytes size payload)
       ++ String_of_cstr (drop (Z.to_nat (size - 1)) (stack m)))%string
  /\ eval (Macro.chip_command command addr ms size) m
     = eval (Plain.chip_command command addr ms size) m.
Proof.
  intros Hsize Hreply Hno. split.
  - rewrite (success_text_run _ _ _ _ payload) by assumption.
    rewrite String_of_cstr_run_on by exact Hno.
    now rewrite drop_stack_zeros.
  - unfold eval. now rewrite Macro_chip_command_run, Plain_chip_command_run.
Qed.

Lemma chip_command_runs_into_stack_witness :
  1 <= 7
  /\ next_reply unterminated_machine = 1 :: [49; 48; 46; 48; 48; 48]
  /\ ~ In zero (stored_bytes 7 [49; 48; 46; 48; 48; 48])
  /\ eval (Plain.chip_command "R" 99 1000 7) unterminated_machine
     = "10.000A"%string.
Proof.
  assert (Hno : ~ In zero (stored_bytes 7 [49; 48; 46; 48; 48; 48])).
  { vm_compute. intros H. repeat (destruct H as [H|H]; [discriminate H|]).
    exact H. }
  split; [lia|]. split; [reflexivity|]. split; [exact Hno|].
  exact (proj1 (chip_command_runs_into_stack "R" 99 1000 7
                  [49; 48; 46; 48; 48; 48] unterminated_machine
                  ltac:(lia) eq_refl Hno)).
Defined.

(** X2. A successful answer with a zero byte among the bytes stored: the text
    has fewer characters than bytes were stored, that is [size - 2] at most,
    and nothing of the stack shows in it.  Both sketches. *)
Theorem chip_command_text_bound (command : string) (addr ms size : Z)
        (payload : list Z) (stk : list ascii) (m : machine) :
  1 <= size ->
  next_reply m = 1 :: payload ->
  In zero (stored_bytes size payload) ->
  (String.length (eval (Plain.chip_command command addr ms size) m)
   < Z.to_nat (size - 1))%nat
  /\ eval (Plain.chip_command command addr ms size)
          (mk_machine (trace m) (wire_rx m) (wire_replies m) stk
                      (ph_chip m) (last_reading m) (device_id m))
     = eval (Plain.chip_command command addr ms size) m
  /\ eval (Macro.chip_command command addr ms size) m
     = eval (Plain.chip_command command addr ms size) m.
Proof.
  intros Hsize Hreply Hzero.
  assert (Hlen : length (stored_bytes size payload) = Z.to_nat (size - 1)).
  { unfold stored_bytes. rewrite length_map, length_take, length_app,
      length_replicate. lia. }
  split; [|split].
  - rewrite (success_text_run _ _ _ _ payload) by assumption.
    rewrite String_of_cstr_terminated by exact Hzero.
    rewrite <- Hlen. now apply String_of_cstr_shorter.
  - rewrite !(success_text_run _ _ _ _ payload) by assumption.
    now rewrite !String_of_cstr_terminated by exact Hzero.
  - unfold eval. now rewrite Macro_chip_command_run, Plain_chip_command_run.
Qed.

Lemma chip_command_text_bound_witness :
  1 <= 7
  /\ next_reply (cycle_start reply_7_10 seven) = 1 :: [55; 46; 49; 48; 0]
  /\ In zero (stored_bytes 7 [55; 46; 49; 48; 0])
  /\ (String.length (eval (Plain.chip_command "R" 99 1000 7)
                          (cycle_start reply_7_10 seven)) < 6)%nat.
Proof.
  assert (Hzero : In zero (stored_bytes 7 [55; 46; 49; 48; 0])).
  { vm_compute. do 4 right. left. reflexivity. }
  split; [lia|]. split; [reflexivity|]. split; [exact Hzero|].
  exact (proj1 (chip_command_text_bound "R" 99 1000 7 [55; 46; 49; 48; 0] []
                  (cycle_start reply_7_10 seven)
                  ltac:(lia) eq_refl Hzero)).
Defined.

(** X3. When the peripheral does not answer (the read request brings no
    byte), [Wire.read] gives [-1], no case of the [switch] applies and the
    text is empty, for every size but zero; the receive buffer is left
    empty.  Both sketches. *)
Theorem chip_command_no_answer (command : string) (addr ms size : Z)
        (m : machine) :
  size <> 0 ->
  next_reply m = [] ->
  Plain.chip_command command addr ms size m
  = (EmptyString,
     mk_machine (trace m ++ [I2cBegin addr; I2cWrite command; I2cEnd;
                             Delay ms; I2cRequest addr size])
                [] (tail (wire_replies m)) (stack m)
                (ph_chip m) (last_reading m) (device_id m))
  /\ Macro.chip_command command addr ms size m
     = Plain.chip_command command addr ms size m.
Proof.
  intros Hsize Hreply.
  rewrite ?Macro_chip_command_run, ?Plain_chip_command_run.
  unfold after_command, transaction.
  destruct (size =? 0) eqn:H0; [lia|].
  rewrite Hreply, take_nil. split; reflexivity.
Qed.

Lemma chip_command_no_answer_witness :
  7 <> 0
  /\ next_reply (cycle_start [] seven) = []
  /\ eval (Plain.chip_command "R" 99 1000 7) (cycle_start [] seven)
     = EmptyString.
Proof.
  split; [discriminate|]. split; [reflexivity|].
  unfold eval.
  rewrite (proj1 (chip_command_no_answer "R" 99 1000 7 (cycle_start [] seven)
                    ltac:(discriminate) eq_refl)).
  reflexivity.
Defined.

(** X4. A command that expects a response starts from a fresh receive
    buffer: bytes an earlier command left unread change neither its text nor
    the machine it leaves.  Both sketches. *)
Theorem chip_command_fresh_buffer (command : string) (addr ms size : Z)
        (rx : list Z) (m : machine) :
  size <> 0 ->
  Plain.chip_command command addr ms size (set_wire rx (wire_replies m) m)
  = Plain.chip_command command addr ms size m
  /\ Macro.chip_command command addr ms size (set_wire rx (wire_replies m) m)
     = Macro.chip_command command addr ms size m.
Proof.
  intros Hsize.
  rewrite ?Macro_chip_command_run, ?Plain_chip_command_run.
  unfold after_command. destruct (size =? 0) eqn:H0; [lia|].
  split; reflexivity.
Qed.

Lemma chip_command_fresh_buffer_witness :
  7 <> 0
  /\ Plain.chip_command "R" 99 1000 7
       (set_wire [50; 48] (wire_replies (cycle_start reply_7_10 seven))
                 (cycle_start reply_7_10 seven))
     = Plain.chip_command "R" 99 1000 7 (cycle_start reply_7_10 seven).
Proof.
  split; [discriminate|].
  exact (proj1 (chip_command_fresh_buffer "R" 99 1000 7 [50; 48]
                  (cycle_start reply_7_10 seven) ltac:(discriminate))).
Defined.

Lemma string_of_list_ascii_append (p q : list ascii) :
  string_of_list_ascii (p ++ q)
  = (string_of_list_ascii p ++ string_of_list_ascii q)%string.
Proof. induction p as [|c p IH]; simpl; [reflexivity|now rewrite IH]. Qed.

Lemma string_append_assoc (a b c : string) :
  ((a ++ b) ++ c = a ++ (b ++ c))%string.
Proof. induction a as [|x a IH]; simpl; [reflexivity|now rewrite IH]. Qed.

Lemma stored_bytes_short (size : Z) (payload : list Z) :
  (length payload <= Z.to_nat (size - 1))%nat ->
  stored_bytes size payload
  = map char_of_int payload
      ++ replicate (Z.to_nat (size - 1) - length payload) "255"%char.
Proof.
  intros Hlen. unfold stored_bytes.
  rewrite take_app_ge by exact Hlen.
  rewrite take_replicate, map_app.
  replace (Init.Nat.min (Z.to_nat (size - 1) - length payload)
                        (Z.to_nat (size - 1)))
    with (Z.to_nat (size - 1) - length payload)%nat by lia.
  f_equal. induction (Z.to_nat (size - 1) - length payload)%nat as [|j IH];
    [reflexivity|]. simpl. now rewrite IH.
Qed.

(** X5. A successful answer shorter than the size asked for, with no zero
    byte in it: every byte it lacks is stored as the character 255, the
    [-1] of [Wire.read] cut to a [char], and the text then runs on into the
    stack.  Both sketches. *)
Theorem chip_command_short_answer (command : string) (addr ms size : Z)
        (payload : list Z) (m : machine) :
  1 <= size ->
  next_reply m = 1 :: payload ->
  (length payload <= Z.to_nat (size - 1))%nat ->
  ~ In zero (map char_of_int payload) ->
  eval (Plain.chip_command command addr ms size) m
  = (string_of_list_ascii (map char_of_int payload)
       ++ string_of_list_ascii
            (replicate (Z.to_nat (size - 1) - length payload) "255"%char)
       ++ String_of_cstr (drop (Z.to_nat (size - 1)) (stack m)))%string
  /\ eval (Macro.chip_command command addr ms size) m
     = eval (Plain.chip_command command addr ms size) m.
Proof.
  intros Hsize Hreply Hlen Hno. split.
  - rewrite (success_text_run _ _ _ _ payload) by assumption.
    rewrite stored_bytes_short by exact Hlen.
    rewrite String_of_cstr_run_on.
    + rewrite string_of_list_ascii_append, drop_stack_zeros.
      now rewrite string_append_assoc.
    + intros Hin. apply in_app_or in Hin. destruct Hin as [Hin|Hin].
      * now apply Hno.
      * apply list_elem_of_In, elem_of_replicate in Hin.
        destruct Hin as [Hin _]. discriminate Hin.
  - unfold eval. now rewrite Macro_chip_command_run, Plain_chip_command_run.
Qed.

Lemma chip_command_short_answer_witness :
  1 <= 7
  /\ next_reply (cycle_start [1; 55] seven) = 1 :: [55]
  /\ (length [55] <= Z.to_nat (7 - 1))%nat
  /\ ~ In zero (map char_of_int [55])
  /\ String.length (eval (Plain.chip_command "R" 99 1000 7)
                         (cycle_start [1; 55] seven)) = 6%nat.
Proof.
  assert (Hno : ~ In zero (map char_of_int [55])).
  { intros [H|[]]. discriminate H. }
  assert (Hlen : (length [55] <= Z.to_nat (7 - 1))%nat) by (simpl; lia).
  split; [lia|]. split; [reflexivity|]. split; [exact Hlen|].
  split; [exact Hno|].
  rewrite (proj1 (chip_command_short_answer "R" 99 1000 7 [55]
                    (cycle_start [1; 55] seven)
                    ltac:(lia) eq_refl Hlen Hno)).
  reflexivity.
Defined.

(** ** More on the main cycle *)

Lemma requests_quiet (tr : list event) : requests (quiet tr) = requests tr.
Proof.
  unfold requests, quiet.
  induction tr as [|e tr IH]; [reflexivity|].
  destruct e; simpl; rewrite ?IH; reflexivity.
Qed.

Lemma written_quiet (tr : list event) : written (quiet tr) = written tr.
Proof.
  unfold quiet.
  induction tr as [|e tr IH]; [reflexivity|].
  destruct e; simpl; rewrite ?IH; reflexivity.
Qed.

Lemma written_app (t1 t2 : list event) :
  written (t1 ++ t2) = written t1 ++ written t2.
Proof.
  induction t1 as [|e t1 IH]; [reflexivity|].
  destruct e; simpl; rewrite ?IH; reflexivity.
Qed.

Lemma written_purges (addr : Z) (n : nat) :
  written (concat (replicate n (purge addr))) = replicate n "R"%string.
Proof.
  induction n as [|n IH]; [reflexivity|].
  cbn [replicate concat]. rewrite written_app, IH. reflexivity.
Qed.

Lemma requests_cycle (m : machine) :
  requests (cycle_events m)
  = [I2cRequest (address (ph_chip m))
                (response_size_of (type (ph_chip m)))].
Proof.
  unfold cycle_events, requests.
  rewrite List.filter_app, requests_purge.
  destruct (exceeds _ _); now destruct (type (ph_chip m)).
Qed.

Lemma written_cycle (m : machine) :
  written (cycle_events m)
  = replicate (purge_count (type (ph_chip m))) "R"%string
      ++ ["R"; "SLEEP"]%string.
Proof.
  unfold cycle_events.
  rewrite written_app, written_purges.
  destruct (exceeds _ _); now destruct (type (ph_chip m)).
Qed.

(** X6. The bus traffic of a cycle, published or not: one read request, to
    the chip's address and of the size of its type; ["R"] written once for
    every purge and once for the measurement; and ["SLEEP"] written once, as
    the last command of the cycle.  Both sketches. *)
Theorem cycle_bus_traffic (dbg : bool) (m : machine) :
  let c := ph_chip m in
  let plain := events_since m (exec Plain.loop m) in
  let macro := events_since m (exec (Macro.loop dbg) m) in
  requests plain = [I2cRequest (address c) (response_size_of (type c))]
  /\ requests macro = requests plain
  /\ written plain
     = replicate (purge_count (type c)) "R"%string ++ ["R"; "SLEEP"]%string
  /\ written macro = written plain.
Proof.
  cbv zeta. unfold exec. rewrite Plain_loop_run, Macro_loop_run. cbn [snd].
  rewrite !events_since_after_cycle.
  rewrite <- (requests_quiet (Plain_loop_events m)).
  rewrite <- (requests_quiet (Macro_loop_events dbg m)).
  rewrite <- (written_quiet (Plain_loop_events m)).
  rewrite <- (written_quiet (Macro_loop_events dbg m)).
  rewrite Plain_loop_quiet, Macro_loop_quiet.
  unfold requests. rewrite !List.filter_app, !written_app.
  fold (requests (cycle_events m)).
  rewrite requests_cycle, written_cycle. cbn [List.filter is_request written].
  rewrite !app_nil_r. repeat split.
Qed.


Lemma datagrams_from_app (t1 t2 : list event) :
  forall pending,
    datagrams_from pending (t1 ++ t2)
    = datagrams_from pending t1
        ++ datagrams_from (pending_after pending t1) t2.
Proof.
  induction t1 as [|e t1 IH]; intros pending; [reflexivity|].
  destruct e; cbn [app datagrams_from pending_after]; try destruct pending;
    rewrite ?IH; reflexivity.
Qed.

Lemma pending_after_app (t1 t2 : list event) :
  forall pending,
    pending_after pending (t1 ++ t2)
    = pending_after (pending_after pending t1) t2.
Proof.
  induction t1 as [|e t1 IH]; intros pending; [reflexivity|].
  destruct e; cbn [app pending_after]; rewrite ?IH; reflexivity.
Qed.

Lemma pending_after_quiet (tr : list event) :
  forall pending, pending_after pending (quiet tr) = pending_after pending tr.
Proof.
  induction tr as [|e tr IH]; intros pending; [reflexivity|].
  destruct e; cbn [quiet List.filter is_serial negb pending_after];
    fold (quiet tr); rewrite ?IH; reflexivity.
Qed.

Lemma pending_after_purges (addr : Z) (n : nat) :
  forall pending,
    pending_after pending (concat (replicate n (purge addr))) = pending.
Proof.
  induction n as [|n IH]; intros pending; [reflexivity|].
  cbn [replicate concat]. rewrite pending_after_app. apply IH.
Qed.

(** No packet is left open at the end of a cycle. *)
Lemma Plain_loop_pending (m : machine) :
  pending_after None (Plain_loop_events m) = None.
Proof.
  rewrite <- pending_after_quiet, Plain_loop_quiet.
  unfold cycle_events.
  rewrite <- !app_assoc, pending_after_app, pending_after_purges.
  destruct (exceeds _ _); now destruct (type (ph_chip m)).
Qed.

Lemma Plain_loop_trace (m : machine) :
  trace (exec Plain.loop m) = trace m ++ Plain_loop_events m.
Proof. unfold exec. now rewrite Plain_loop_run. Qed.

Lemma cycles_succ (n : nat) (m : machine) :
  exec (cycles (S n)) m = exec (cycles n) (exec Plain.loop m).
Proof.
  unfold exec, cycles. cbn [repeatM]. unfold bind.
  now destruct (Plain.loop m).
Qed.

(** [n] cycles, one after the other. *)
Lemma cycles_run (n : nat) :
  forall m : machine,
    exists evs : list event,
      trace (exec (cycles n) m) = trace m ++ evs
      /\ length (requests evs) = n
      /\ (length (datagrams evs) <= n)%nat
      /\ pending_after None evs = None
      /\ wire_replies (exec (cycles n) m) = drop n (wire_replies m)
      /\ type (ph_chip (exec (cycles n) m)) = type (ph_chip m)
      /\ mode (ph_chip (exec (cycles n) m)) = mode (ph_chip m)
      /\ address (ph_chip (exec (cycles n) m)) = address (ph_chip m)
      /\ device_id (exec (cycles n) m) = device_id m.
Proof.
  induction n as [|n IH]; intros m.
  - exists []. cbn. rewrite app_nil_r. repeat split. lia.
  - destruct (IH (exec Plain.loop m))
      as (evs & Htr & Hreq & Hsent & Hpend & Hrep & Ht & Hm & Ha & Hid).
    destruct (cycle_outcome false m) as ((_ & Hone & _) & _).
    rewrite (events_since_app _ _ _ (Plain_loop_trace m)) in Hone.
    pose proof (Plain_loop_run m) as Hrun.
    assert (Hfr : wire_replies (exec Plain.loop m) = tail (wire_replies m)
                  /\ type (ph_chip (exec Plain.loop m)) = type (ph_chip m)
                  /\ mode (ph_chip (exec Plain.loop m)) = mode (ph_chip m)
                  /\ address (ph_chip (exec Plain.loop m))
                     = address (ph_chip m)
                  /\ device_id (exec Plain.loop m) = device_id m).
    { unfold exec. rewrite Hrun. cbn [snd]. unfold after_cycle. fields.
      destruct (after_reading_fields m) as (_ & _ & _ & Ht' & Hm' & Ha').
      rewrite Ht', Hm', Ha'. repeat split.
      unfold after_reading, after_command. now destruct (type (ph_chip m)). }
    destruct Hfr as (Hrep1 & Ht1 & Hm1 & Ha1 & Hid1).
    exists (Plain_loop_events m ++ evs).
    rewrite cycles_succ, Htr, Plain_loop_trace, <- app_assoc.
    split; [reflexivity|].
    split.
    { unfold requests in *. rewrite List.filter_app, length_app, Hreq.
      fold (requests (Plain_loop_events m)).
      rewrite <- requests_quiet, Plain_loop_quiet.
      unfold requests. rewrite List.filter_app.
      fold (requests (cycle_events m)). rewrite requests_cycle.
      reflexivity. }
    split.
    { unfold datagrams in *.
      rewrite datagrams_from_app, Plain_loop_pending, length_app, Hone.
      destruct (exceeds _ _); cbn [length]; lia. }
    split.
    { now rewrite pending_after_app, Plain_loop_pending. }
    rewrite Hrep, Hrep1, Ht, Ht1, Hm, Hm1, Ha, Ha1, Hid, Hid1.
    repeat split.
    destruct (wire_replies m); cbn [tail];
      [now rewrite !drop_nil|reflexivity].
Qed.

(** X8. [n] cycles of the plain-serial sketch take [n] answers from the
    peripheral, one read request each, and send [n] datagrams at most; the
    chip's type, mode and address and the device id are after them what they
    were before. *)
Theorem cycles_compose (n : nat) (m : machine) :
  let m' := exec (cycles n) m in
  wire_replies m' = drop n (wire_replies m)
  /\ length (requests (events_since m m')) = n
  /\ (length (datagrams (events_since m m')) <= n)%nat
  /\ type (ph_chip m') = type (ph_chip m)
  /\ mode (ph_chip m') = mode (ph_chip m)
  /\ address (ph_chip m') = address (ph_chip m)
  /\ device_id m' = device_id m.
Proof.
  cbv zeta.
  destruct (cycles_run n m)
    as (evs & Htr & Hreq & Hsent & _ & Hrep & Ht & Hm & Ha & Hid).
  rewrite (events_since_app _ _ _ Htr). repeat split; assumption.
Qed.

Lemma events_since_cycles (n : nat) (m : machine) :
  exists evs : list event,
    events_since (exec Plain.loop m) (exec (cycles n) (exec Plain.loop m))
    = evs
    /\ events_since m (exec (cycles (S n)) m) = Plain_loop_events m ++ evs.
Proof.
  destruct (cycles_run n (exec Plain.loop m)) as (evs & Htr & _).
  exists evs. split.
  - now apply events_since_app.
  - apply events_since_app.
    now rewrite cycles_succ, Htr, Plain_loop_trace, <- app_assoc.
Qed.

Lemma datagrams_cycles_succ (n : nat) (m : machine) :
  datagrams (events_since m (exec (cycles (S n)) m))
  = datagrams (events_since m (exec Plain.loop m))
      ++ datagrams (events_since (exec Plain.loop m)
                                 (exec (cycles n) (exec Plain.loop m))).
Proof.
  destruct (events_since_cycles n m) as (evs & -> & ->).
  rewrite (events_since_app _ _ _ (Plain_loop_trace m)).
  unfold datagrams. now rewrite datagrams_from_app, Plain_loop_pending.
Qed.

(** X9. The retained reading is the baseline of what was sent: over any
    number of cycles of the plain-serial sketch in which no datagram is
    sent, [last_reading] keeps its value. *)
Theorem cycles_keep_baseline (n : nat) :
  forall m : machine,
    datagrams (events_since m (exec (cycles n) m)) = [] ->
    last_reading (exec (cycles n) m) = last_reading m.
Proof.
  induction n as [|n IH]; intros m Hnone; [reflexivity|].
  rewrite datagrams_cycles_succ in Hnone.
  apply app_eq_nil in Hnone. destruct Hnone as [Hfirst Hrest].
  rewrite cycles_succ, (IH _ Hrest).
  destruct (cycle_outcome false m) as ((_ & Hone & Hlast) & _).
  rewrite Hone in Hfirst. rewrite Hlast.
  now destruct (exceeds _ _).
Qed.

Lemma cycles_keep_baseline_witness :
  datagrams (events_since
               (set_wire [] [reply_7_02; reply_7_02]
                         (cycle_start reply_7_02 seven))
               (exec (cycles 2)
                     (set_wire [] [reply_7_02; reply_7_02]
                               (cycle_start reply_7_02 seven)))) = []
  /\ last_reading (exec (cycles 2)
                        (set_wire [] [reply_7_02; reply_7_02]
                                  (cycle_start reply_7_02 seven))) = seven.
Proof.
  assert (Hnone :
    datagrams (events_since
                 (set_wire [] [reply_7_02; reply_7_02]
                           (cycle_start reply_7_02 seven))
                 (exec (cycles 2)
                       (set_wire [] [reply_7_02; reply_7_02]
                                 (cycle_start reply_7_02 seven)))) = [])
    by (vm_compute; reflexivity).
  split; [exact Hnone|].
  exact (cycles_keep_baseline 2 _ Hnone).
Defined.

Lemma exceeds_nan (reading : string) : exceeds reading S754_nan = false.
Proof.
  unfold exceeds, Float.gt, Float.fabs, Float.sub, Float.to_double.
  now destruct (atof reading).
Qed.

(** X10. A retained reading that is not a number is never replaced: with
    [last_reading] a NaN the comparison of the cycle is false whatever is
    measured, so no cycle sends a datagram and [last_reading] stays a NaN,
    over any number of cycles of the plain-serial sketch and over a cycle of
    the other. *)
Theorem nan_baseline_is_stuck (dbg : bool) (n : nat) :
  forall m : machine,
    last_reading m = S754_nan ->
    datagrams (events_since m (exec (cycles n) m)) = []
    /\ last_reading (exec (cycles n) m) = S754_nan
    /\ datagrams (events_since m (exec (Macro.loop dbg) m)) = []
    /\ last_reading (exec (Macro.loop dbg) m) = S754_nan.
Proof.
  induction n as [|n IH]; intros m Hnan.
  - destruct (cycle_outcome dbg m) as (_ & (_ & Hone & Hlast)).
    rewrite Hone, Hlast, Hnan, exceeds_nan.
    split; [|split; [exact Hnan|split; reflexivity]].
    unfold events_since. cbn. now rewrite drop_all.
  - destruct (cycle_outcome dbg m) as ((_ & Hone & Hlast) & (_ & Hone' & Hlast')).
    rewrite Hnan, exceeds_nan in Hone, Hlast, Hone', Hlast'.
    destruct (IH (exec Plain.loop m) Hlast) as (Hrest & Hstay & _).
    rewrite datagrams_cycles_succ, Hone, Hrest, cycles_succ, Hstay.
    rewrite Hone', Hlast'. repeat split.
Qed.

Lemma nan_baseline_is_stuck_witness :
  last_reading (cycle_start reply_7_10 S754_nan) = S754_nan
  /\ datagrams (events_since (cycle_start reply_7_10 S754_nan)
                  (exec (cycles 3) (cycle_start reply_7_10 S754_nan))) = []
  /\ last_reading (exec (cycles 3) (cycle_start reply_7_10 S754_nan))
     = S754_nan.
Proof.
  split; [reflexivity|].
  destruct (nan_baseline_is_stuck false 3 (cycle_start reply_7_10 S754_nan)
              eq_refl) as (Hnone & Hstay & _).
  split; [exact Hnone | exact Hstay].
Defined.

Lemma sub_self_below_threshold (x : spec_float) :
  Float.gt (Float.fabs (Float.sub x x)) (Float.to_double delta_to_publish)
  = false.
Proof.
  destruct x as [s|s| |s mx ex]; try (now destruct s); [reflexivity|].
  unfold Float.sub, SFsub. rewrite Z.sub_diag. reflexivity.
Qed.

(** X11. A reading that parses to exactly the retained value is not sent: the
    difference is zero, and neither a datagram nor a change of
    [last_reading] follows.  Both sketches. *)
Theorem exact_reading_is_not_sent (dbg : bool) (m : machine) :
  let reading :=
    eval (Plain.chip_command "R" (address (ph_chip m)) 1000
                             (response_size_of (type (ph_chip m)))) m in
  atof reading = Float.to_double (last_reading m) ->
  datagrams (events_since m (exec Plain.loop m)) = []
  /\ last_reading (exec Plain.loop m) = last_reading m
  /\ datagrams (events_since m (exec (Macro.loop dbg) m)) = []
  /\ last_reading (exec (Macro.loop dbg) m) = last_reading m.
Proof.
  cbv zeta. rewrite <- measured_command. intros Hsame.
  destruct (cycle_outcome dbg m) as ((_ & Hone & Hlast) & (_ & Hone' & Hlast')).
  rewrite Hone, Hlast, Hone', Hlast'. unfold exceeds.
  rewrite Hsame, sub_self_below_threshold. repeat split.
Qed.

Lemma exact_reading_is_not_sent_witness :
  atof (eval (Plain.chip_command "R" 99 1000 7)
             (cycle_start [1; 55; 46; 53; 0] (Float.to_float (atof "7.5"))))
  = Float.to_double (Float.to_float (atof "7.5"))
  /\ datagrams (events_since
                  (cycle_start [1; 55; 46; 53; 0] (Float.to_float (atof "7.5")))
                  (exec Plain.loop
                     (cycle_start [1; 55; 46; 53; 0]
                                  (Float.to_float (atof "7.5"))))) = [].
Proof.
  assert (Hsame :
    atof (eval (Plain.chip_command "R" 99 1000 7)
               (cycle_start [1; 55; 46; 53; 0] (Float.to_float (atof "7.5"))))
    = Float.to_double (Float.to_float (atof "7.5")))
    by (vm_compute; reflexivity).
  split; [exact Hsame|].
  exact (proj1 (exact_reading_is_not_sent false
                  (cycle_start [1; 55; 46; 53; 0] (Float.to_float (atof "7.5")))
                  Hsame)).
Defined.


(** ** Start-up in closed form *)

Lemma read_device_id_run (m : machine) :
  read_device_id m = (device_id m, m).
Proof. reflexivity. Qed.

Lemma write_device_id_run (id : string) (m : machine) :
  write_device_id id m = (tt, set_device_id id m).
Proof. reflexivity. Qed.

Lemma Wire_beginTransmission_run (addr : Z) (m : machine) :
  Wire_beginTransmission addr m
  = (tt, set_trace (trace m ++ [I2cBegin addr]) m).
Proof. reflexivity. Qed.

Lemma Wire_write_run (s : string) (m : machine) :
  Wire_write s m = (tt, set_trace (trace m ++ [I2cWrite s]) m).
Proof. reflexivity. Qed.

Lemma Wire_endTransmission_run (m : machine) :
  Wire_endTransmission m = (tt, set_trace (trace m ++ [I2cEnd]) m).
Proof. reflexivity. Qed.

Ltac boot_head :=
  first [ rewrite DEBUG_PRINT_run
        | rewrite Serial_println_run
        | rewrite delay_run
        | rewrite Wire_beginTransmission_run
        | rewrite Wire_write_run
        | rewrite Wire_endTransmission_run
        | rewrite read_ph_chip_run
        | rewrite read_last_reading_run
        | rewrite read_device_id_run
        | rewrite write_device_id_run ];
  cbv beta iota;
  cbn [trace wire_rx wire_replies stack ph_chip last_reading device_id
       set_trace set_device_id fst snd] in *.

Ltac boot_step := unfold bind at 1; boot_head.

Lemma Plain_setup_run (deviceID : string) (p : peripherals) (m : machine) :
  PlainBoot.setup deviceID p m
  = (mk_peripherals (Some udp_local_port) true (Some 9600),
     mk_machine (trace m ++ Plain_setup_events deviceID m)
                (wire_rx m) (wire_replies m) (stack m)
                (ph_chip m) (last_reading m) (cached_id deviceID m)).
Proof.
  unfold PlainBoot.setup, Plain_setup_events, cached_id, led.
  do 3 boot_step. unfold bind at 1.
  destruct (String.eqb (device_id m) "").
  - do 3 boot_step. boot_head. cbv zeta. do 17 boot_step.
    unfold ret, udp_begin, Wire_begin, Serial_begin. cbn.
    rewrite <- !app_assoc. reflexivity.
  - boot_step. boot_head. cbv zeta. do 17 boot_step.
    unfold ret, udp_begin, Wire_begin, Serial_begin. cbn.
    rewrite <- !app_assoc. reflexivity.
Qed.

Lemma Macro_setup_run (dbg : bool) (deviceID : string) (p : peripherals)
      (m : machine) :
  MacroBoot.setup dbg deviceID p m
  = (mk_peripherals (Some udp_local_port) true
                    (if dbg then Some 9600 else serial_baud p),
     mk_machine (trace m ++ Macro_setup_events dbg deviceID m)
                (wire_rx m) (wire_replies m) (stack m)
                (ph_chip m) (last_reading m) (cached_id deviceID m)).
Proof.
  unfold MacroBoot.setup, Macro_setup_events, cached_id, led.
  do 2 boot_step. unfold bind at 1.
  destruct (String.eqb (device_id m) "").
  - do 2 boot_step. boot_head. cbv zeta.
    destruct dbg; do 4 boot_step;
      unfold ret, udp_begin, Wire_begin, Serial_begin; cbn;
      rewrite <- ?app_assoc; reflexivity.
  - boot_step. boot_head. cbv zeta.
    destruct dbg; do 4 boot_step;
      unfold ret, udp_begin, Wire_begin, Serial_begin; cbn;
      rewrite <- ?app_assoc; reflexivity.
Qed.

(** ** Properties of start-up *)


(** X12. The device id is fetched once: [setup] keeps a retained id and takes
    the cloud's only when none is retained, so once an id is there a later
    [setup] keeps it whatever the cloud then answers.  Both sketches. *)
Theorem setup_keeps_device_id (dbg : bool) (id id' : string)
        (p p' : peripherals) (m : machine) :
  let first := if String.eqb (device_id m) "" then id else device_id m in
  first <> EmptyString ->
  device_id (exec (PlainBoot.setup id p) m) = first
  /\ device_id (exec (PlainBoot.setup id' p')
                     (exec (PlainBoot.setup id p) m)) = first
  /\ device_id (exec (MacroBoot.setup dbg id p) m) = first
  /\ device_id (exec (MacroBoot.setup dbg id' p')
                     (exec (MacroBoot.setup dbg id p) m)) = first.
Proof.
  cbv zeta. intros Hfirst.
  unfold exec. rewrite !Plain_setup_run, !Macro_setup_run. cbn [snd].
  unfold cached_id. cbn [device_id].
  apply String.eqb_neq in Hfirst. rewrite Hfirst. repeat split.
Qed.

Lemma setup_keeps_device_id_witness :
  (if String.eqb (device_id (first_boot [])) "" then sample_id
   else device_id (first_boot [])) <> EmptyString
  /\ device_id (exec (PlainBoot.setup other_id unstarted)
                     (exec (PlainBoot.setup sample_id unstarted)
                           (first_boot []))) = sample_id.
Proof.
  assert (Hfirst :
    (if String.eqb (device_id (first_boot [])) "" then sample_id
     else device_id (first_boot [])) <> EmptyString) by discriminate.
  split; [exact Hfirst|].
  destruct (setup_keeps_device_id false sample_id other_id
              unstarted unstarted (first_boot []) Hfirst)
    as (_ & Hagain & _).
  exact Hagain.
Defined.



(** ** Start-up and cycles together *)

Lemma sketch_exec (n : nat) (id : string) (p : peripherals) (m : machine) :
  exec (PlainBoot.sketch n id p) m
  = exec (cycles n) (exec (PlainBoot.setup id p) m).
Proof.
  unfold exec, PlainBoot.sketch, cycles, bind.
  destruct (PlainBoot.setup id p m) as [p' m1]. cbn [snd].
  now destruct (repeatM n Plain.loop m1).
Qed.

Lemma Plain_loop_device_id (m : machine) :
  device_id (exec Plain.loop m) = device_id m.
Proof. unfold exec. now rewrite Plain_loop_run. Qed.

(** Every datagram of [n] cycles is a gauge line of the device id. *)
Lemma cycles_datagrams (n : nat) :
  forall m : machine,
    Forall (is_gauge_of (device_id m))
           (datagrams (events_since m (exec (cycles n) m))).
Proof.
  induction n as [|n IH]; intros m.
  - unfold events_since. cbn. rewrite drop_all. constructor.
  - rewrite datagrams_cycles_succ. apply Forall_app. split.
    + destruct (cycle_outcome false m) as ((_ & Hone & _) & _).
      rewrite Hone. destruct (exceeds _ _); constructor; [|constructor].
      repeat split. now exists (measured m).
    + rewrite <- (Plain_loop_device_id m). apply IH.
Qed.

Lemma Plain_setup_sends_nothing (id : string) (m : machine) :
  datagrams (Plain_setup_events id m) = []
  /\ pending_after None (Plain_setup_events id m) = None.
Proof.
  unfold Plain_setup_events. now destruct (String.eqb (device_id m) "").
Qed.

Lemma Macro_setup_sends_nothing (dbg : bool) (id : string) (m : machine) :
  datagrams (Macro_setup_events dbg id m) = []
  /\ pending_after None (Macro_setup_events dbg id m) = None.
Proof.
  unfold Macro_setup_events.
  now destruct (String.eqb (device_id m) ""); destruct dbg.
Qed.

(** X14. From boot on, every datagram carries the cached device id: over
    [setup] and any number of cycles of the plain-serial sketch, and over
    [setup] and the cycle of the other, each datagram goes to the collector
    and is a gauge line named by the id retained at boot, or by the cloud's
    when none was retained; [n] cycles send [n] datagrams at most and take
    [n] answers from the peripheral, [setup] none. *)
Theorem sketch_datagrams (dbg : bool) (n : nat) (id : string)
        (p : peripherals) (m : machine) :
  let name := if String.eqb (device_id m) "" then id else device_id m in
  let plain := exec (PlainBoot.sketch n id p) m in
  let macro := exec (Macro.loop dbg) (exec (MacroBoot.setup dbg id p) m) in
  Forall (is_gauge_of name) (datagrams (events_since m plain))
  /\ (length (datagrams (events_since m plain)) <= n)%nat
  /\ wire_replies plain = drop n (wire_replies m)
  /\ device_id plain = name
  /\ Forall (is_gauge_of name) (datagrams (events_since m macro))
  /\ device_id macro = name.
Proof.
  cbv zeta. fold (cached_id id m). rewrite sketch_exec.
  set (m1 := exec (PlainBoot.setup id p) m).
  set (m2 := exec (MacroBoot.setup dbg id p) m).
  assert (H1 : trace m1 = trace m ++ Plain_setup_events id m
               /\ device_id m1 = cached_id id m
               /\ wire_replies m1 = wire_replies m).
  { unfold m1, exec. rewrite Plain_setup_run. repeat split. }
  assert (H2 : trace m2 = trace m ++ Macro_setup_events dbg id m
               /\ device_id m2 = cached_id id m).
  { unfold m2, exec. rewrite Macro_setup_run. repeat split. }
  destruct H1 as (Htr1 & Hid1 & Hrep1). destruct H2 as (Htr2 & Hid2).
  destruct (cycles_run n m1)
    as (evs & Htr & _ & Hsent & _ & Hrep & _ & _ & _ & Hid).
  pose proof (cycles_datagrams n m1) as Hall.
  rewrite (events_since_app _ _ _ Htr) in Hall.
  assert (Hev : events_since m (exec (cycles n) m1)
                = Plain_setup_events id m ++ evs).
  { apply events_since_app. now rewrite Htr, Htr1, <- app_assoc. }
  assert (Hdg : datagrams (events_since m (exec (cycles n) m1))
                = datagrams evs).
  { rewrite Hev. unfold datagrams. rewrite datagrams_from_app.
    destruct (Plain_setup_sends_nothing id m) as (Hn & Hp).
    unfold datagrams in Hn. now rewrite Hn, Hp. }
  rewrite Hdg, Hrep, Hrep1, Hid, Hid1. rewrite Hid1 in Hall.
  do 4 (split; [assumption || reflexivity|]).
  destruct (cycle_outcome dbg m2) as (_ & (_ & Hone & _)).
  assert (Hev2 : events_since m (exec (Macro.loop dbg) m2)
                 = Macro_setup_events dbg id m
                     ++ events_since m2 (exec (Macro.loop dbg) m2)).
  { unfold exec. rewrite Macro_loop_run. cbn [snd].
    rewrite events_since_after_cycle. apply events_since_app.
    unfold after_cycle. cbn [trace]. now rewrite Htr2, <- app_assoc. }
  split.
  - rewrite Hev2. unfold datagrams. rewrite datagrams_from_app.
    destruct (Macro_setup_sends_nothing dbg id m) as (Hn & Hp).
    unfold datagrams in Hn. rewrite Hn, Hp. cbn [app].
    fold (datagrams (events_since m2 (exec (Macro.loop dbg) m2))).
    rewrite Hone, Hid2.
    destruct (exceeds _ _); constructor; [|constructor].
    repeat split. now exists (measured m2).
  - unfold exec. rewrite Macro_loop_run. cbn [snd]. exact Hid2.
Qed.
